(** * server.js: a tabular dataset behind a small HTTP interface

    A shallow embedding of [server.js] (the only source file of the
    repository) and the properties of its request handler.

    Conventions of the embedding.
    - A JavaScript value that [JSON.parse] can produce is a [value]; a
      number is kept by its canonical rendering ([Number::toString]),
      which is all the handler ever uses of it (truthiness, equality in
      [Array.prototype.includes], conversion to a property key).
    - An object is a finite map of its own enumerable properties
      ([gmap string value]); the members every object inherits from
      [Object.prototype] are written out where the handler reads or
      writes a property whose name comes from the client.
    - [fs] is a state: what [data.json] holds, and the log of calls made
      to [fs.readFile] and [fs.writeFile].  A document on disk is
      identified with the value its text denotes.
    - An exception is a value of [Error]; [async]/[await] is sequencing
      in a state-and-exception monad.
    - A request body arrives as the texts [chunk.toString()] of its
      ['data'] events; how the bytes were cut into chunks and decoded is
      the runtime's part.
    - Assumed of the environment: a text in [data.json] that parses has
      the shape the server itself writes (an object with an array of
      columns and an array of record objects); [fs.writeFile] succeeds;
      a request is handled to its end before the next one starts. *)

From stdpp Require Import gmap strings list fin_maps.
From Stdlib Require Import ZArith Ascii String.

Set Warnings "-register-all".

#[local] Open Scope string_scope.
#[local] Open Scope Z_scope.

(** ** JavaScript values *)

(** A Number: finite ones by their canonical decimal rendering (both
    zeros render as "0"), and the two infinities, which [JSON.parse]
    returns for literals beyond the double range, such as [1e999]. *)
Inductive number :=
  | Finite (repr : string)
  | PosInfinity
  | NegInfinity.

Inductive value :=
  | VNull
  | VBool (b : bool)
  | VNum (n : number)
  | VStr (s : string)
  | VArr (l : list value)
  | VObj (m : gmap string value)
  | VFun (name : string)   (* a built-in function object *)
  | VProto.                (* the object [Object.prototype] *)

(** The double quote character, for texts that contain it. *)
Definition dq : string := String (ascii_of_nat 34) EmptyString.

Definition number_to_string (n : number) : string :=
  match n with
  | Finite repr => repr
  | PosInfinity => "Infinity"
  | NegInfinity => "-Infinity"
  end.

(** ToBoolean. *)
Definition truthy (v : value) : bool :=
  match v with
  | VNull => false
  | VBool b => b
  | VNum (Finite repr) => negb (String.eqb repr "0")
  | VNum _ => true
  | VStr s => negb (String.eqb s EmptyString)
  | VArr _ | VObj _ | VFun _ | VProto => true
  end.

(** [a || b]. *)
Definition js_or (a b : value) : value := if truthy a then a else b.

Definition join (sep : string) (l : list string) : string :=
  match l with
  | [] => EmptyString
  | s :: rest => foldl (fun acc t => acc ++ sep ++ t) s rest
  end.

(** ToString of a value that has one (see [to_key] for those that have
    none): an array is joined with commas, [null] elements rendered
    empty; any other object is "[object Object]". *)
Fixpoint to_string (v : value) : string :=
  match v with
  | VNull => "null"
  | VBool true => "true"
  | VBool false => "false"
  | VNum n => number_to_string n
  | VStr s => s
  | VArr l =>
      join "," (map (fun e => match e with
                              | VNull => EmptyString
                              | _ => to_string e
                              end) l)
  | VObj _ | VProto => "[object Object]"
  | VFun name => "function " ++ name ++ "() { [native code] }"
  end.

(** ToPropertyKey, [None] when it throws a TypeError.  An object is
    converted by its [toString] method and then its [valueOf]: an object
    made by [JSON.parse] inherits both from [Object.prototype], which
    gives "[object Object]", unless it has an own property [toString];
    that property is no function and the inherited [valueOf] returns the
    object, so the conversion throws.  An array is joined, which
    converts each element that is not [null]. *)
Fixpoint to_key (v : value) : option string :=
  match v with
  | VArr l =>
      join "," <$>
      (fix elements (l : list value) : option (list string) :=
         match l with
         | [] => Some []
         | e :: rest =>
             match (match e with
                    | VNull => Some EmptyString
                    | _ => to_key e
                    end) with
             | Some s => cons s <$> elements rest
             | None => None
             end
         end) l
  | VObj m =>
      match m !! "toString" with
      | Some _ => None
      | None => Some "[object Object]"
      end
  | v => Some (to_string v)
  end.

(** [col] can be used as a property key. *)
Definition has_key (col : value) : bool :=
  match to_key col with
  | Some _ => true
  | None => false
  end.

(** SameValueZero, as [Array.prototype.includes] compares: primitives by
    value; an object only equals itself, and the two sides compared here
    always come from two different calls of [JSON.parse]. *)
Definition same_value_zero (a b : value) : bool :=
  match a, b with
  | VNull, VNull => true
  | VBool x, VBool y => Bool.eqb x y
  | VNum (Finite x), VNum (Finite y) => String.eqb x y
  | VNum PosInfinity, VNum PosInfinity => true
  | VNum NegInfinity, VNum NegInfinity => true
  | VStr x, VStr y => String.eqb x y
  | _, _ => false
  end.

(** [arr.includes(x)]. *)
Definition includes (arr : list value) (x : value) : bool :=
  existsb (fun y => same_value_zero y x) arr.

(** What [JSON.stringify] followed by [JSON.parse] makes of a value:
    [None] where [JSON.stringify] gives [undefined].  Infinities become
    [null]; a property whose value is a function is left out, and a
    function in an array becomes [null]; [Object.prototype] has no
    enumerable property. *)
Fixpoint json_image (v : value) : option value :=
  match v with
  | VNull => Some VNull
  | VBool b => Some (VBool b)
  | VNum (Finite repr) => Some (VNum (Finite repr))
  | VNum _ => Some VNull
  | VStr s => Some (VStr s)
  | VArr l => Some (VArr (map (fun e => default VNull (json_image e)) l))
  | VObj m => Some (VObj (omap json_image m))
  | VFun _ => None
  | VProto => Some (VObj ∅)
  end.

Definition json_of (v : value) : value := default VNull (json_image v).

(** ** The dataset, exceptions and the file system *)

(** The object kept in [data.json]: [{ columns: [...], records: [...] }],
    each record an object. *)
Record Dataset := mkDataset {
  columns : list value;
  records : list (gmap string value)
}.

(** [{ columns: [], records: [] }] *)
Definition initialData : Dataset := mkDataset [] [].

(** The dataset as [JSON.stringify] writes it and [JSON.parse] reads it
    back. *)
Definition dataset_json (d : Dataset) : Dataset :=
  mkDataset (map json_of (columns d)) (map (omap json_image) (records d)).

Inductive Error :=
  | FsError (code : string) (message : string)   (* thrown by [fs], has [.code] *)
  | SyntaxError (message : string)               (* thrown by [JSON.parse] *)
  | TypeError (message : string)
  | PlainError (message : string).               (* [new Error(message)] *)

Definition error_code (e : Error) : option string :=
  match e with
  | FsError code _ => Some code
  | _ => None
  end.

(** [e.code === code] *)
Definition has_code (e : Error) (code : string) : bool :=
  match error_code e with
  | Some c => String.eqb c code
  | None => false
  end.

Definition error_message (e : Error) : string :=
  match e with
  | FsError _ m | SyntaxError m | TypeError m | PlainError m => m
  end.

(** What [data.json] is when the server looks at it. *)
Inductive File :=
  | Absent                       (* no such file: [readFile] fails with ENOENT *)
  | Unreadable (e : Error)       (* [readFile] fails with [e] *)
  | Corrupt (message : string)   (* text on which [JSON.parse] throws *)
  | Document (d : Dataset).      (* text that denotes [d] *)

Inductive FsCall :=
  | ReadFile
  | WriteFile (d : Dataset).

Record Fs := mkFs {
  file : File;
  calls : list FsCall            (* oldest first *)
}.

Inductive Result (A : Type) :=
  | Ok (a : A)
  | Throw (e : Error).
Arguments Ok {A} a.
Arguments Throw {A} e.

(** A computation that may read and write the file and may throw. *)
Definition M (A : Type) : Type := Fs -> Result A * Fs.

Definition ret {A} (a : A) : M A := fun fs => (Ok a, fs).
Definition throw {A} (e : Error) : M A := fun fs => (Throw e, fs).
Definition bind {A B} (m : M A) (k : A -> M B) : M B :=
  fun fs =>
    match m fs with
    | (Ok a, fs') => k a fs'
    | (Throw e, fs') => (Throw e, fs')
    end.
Definition try_catch {A} (m : M A) (handler : Error -> M A) : M A :=
  fun fs =>
    match m fs with
    | (Ok a, fs') => (Ok a, fs')
    | (Throw e, fs') => handler e fs'
    end.

Notation "x <- m ;; k" := (bind m (fun x => k))
  (at level 100, m at next level, right associativity).
Notation "m ;;; k" := (bind m (fun _ => k))
  (at level 100, right associativity).

(** What [fs.readFile] hands over: a text, here by what [JSON.parse]
    makes of it. *)
Inductive Text :=
  | BadText (message : string)
  | DatasetText (d : Dataset).

(** [fs.readFile(DATA_FILE, 'utf-8')] *)
Definition fs_readFile : M Text :=
  fun fs =>
    let fs' := mkFs (file fs) (calls fs ++ [ReadFile]) in
    match file fs with
    | Absent =>
        (Throw (FsError "ENOENT" "ENOENT: no such file or directory"), fs')
    | Unreadable e => (Throw e, fs')
    | Corrupt m => (Ok (BadText m), fs')
    | Document d => (Ok (DatasetText d), fs')
    end.

(** [fs.writeFile(DATA_FILE, JSON.stringify(data, null, 2))]: the whole
    document is replaced. *)
Definition fs_writeFile (data : Dataset) : M unit :=
  fun fs =>
    let d := dataset_json data in
    (Ok tt, mkFs (Document d) (calls fs ++ [WriteFile d])).

(** [JSON.parse(data)] on the text of the document. *)
Definition parse_document (t : Text) : M Dataset :=
  match t with
  | BadText m => throw (SyntaxError m)
  | DatasetText d => ret d
  end.

(** [readData] (server.js, lines 15-29). *)
Definition readData : M Dataset :=
  try_catch
    (data <- fs_readFile ;;
     parse_document data)
    (fun error =>
       if has_code error "ENOENT" then
         fs_writeFile initialData ;;;
         ret initialData
       else throw error).

(** [writeData] (lines 35-37). *)
Definition writeData (data : Dataset) : M unit := fs_writeFile data.

(** ** Requests and responses *)

Record Request := mkRequest {
  method : string;
  url : string;
  chunks : list string;          (* [chunk.toString()] of each ['data'] event, in order *)
  stream_error : option Error    (* an ['error'] event instead of ['end'] *)
}.

Inductive Payload :=
  | DataBody (d : Dataset)
  | MessageBody (message : string)            (* [{ message }] *)
  | ErrorBody (message error : string).       (* [{ message, error }] *)

Record Response := mkResponse {
  status : Z;
  headers : list (string * string);
  body : option Payload          (* [None]: [res.end()] without data *)
}.

(** The JSON value a payload is sent as. *)
Definition payload_value (p : Payload) : value :=
  match p with
  | DataBody d =>
      VObj (<["columns" := VArr (columns d)]>
            (<["records" := VArr (VObj <$> records d)]> ∅))
  | MessageBody m => VObj (<["message" := VStr m]> ∅)
  | ErrorBody m e => VObj (<["message" := VStr m]> (<["error" := VStr e]> ∅))
  end.

(** [JSON.stringify(data)] in [sendResponse]. *)
Definition stringify_payload (p : Payload) : Payload :=
  match p with
  | DataBody d => DataBody (dataset_json d)
  | p => p
  end.

Definition cors_headers : list (string * string) :=
  [ ("Access-Control-Allow-Origin", "*");
    ("Access-Control-Allow-Methods", "GET, POST, DELETE, OPTIONS");
    ("Access-Control-Allow-Headers", "Content-Type") ].

(** [sendResponse] (lines 68-77). *)
Definition sendResponse (statusCode : Z) (data : Payload) : Response :=
  mkResponse statusCode
    (("Content-Type", "application/json") :: cors_headers)
    (Some (stringify_payload data)).

(** [handleOptions] (lines 82-90). *)
Definition handleOptions : Response :=
  mkResponse 204 (cors_headers ++ [("Content-Length", "0")]) None.

(** ** Strings: [split], [startsWith], [parseInt] *)

(** [s.split(c)] for a one-character separator. *)
Fixpoint split (c : ascii) (s : string) : list string :=
  match s with
  | EmptyString => [EmptyString]
  | String a rest =>
      if Ascii.eqb a c then EmptyString :: split c rest
      else match split c rest with
           | part :: parts => String a part :: parts
           | [] => [String a EmptyString]
           end
  end.

(** [s.startsWith(p)] *)
Definition startsWith (s p : string) : bool := String.prefix p s.

(** StrWhiteSpaceChar among the code units below 256. *)
Definition is_white_space (a : ascii) : bool :=
  let n := Z.of_nat (nat_of_ascii a) in
  ((9 <=? n) && (n <=? 13)) || (n =? 32) || (n =? 160).

Fixpoint skip_white_space (s : string) : string :=
  match s with
  | String a rest => if is_white_space a then skip_white_space rest else s
  | EmptyString => s
  end.

(** The value of a digit in radix up to 36. *)
Definition digit_value (a : ascii) : option Z :=
  let n := Z.of_nat (nat_of_ascii a) in
  if (48 <=? n) && (n <=? 57) then Some (n - 48)
  else if (97 <=? n) && (n <=? 122) then Some (n - 87)
  else if (65 <=? n) && (n <=? 90) then Some (n - 55)
  else None.

(** The longest prefix of radix-[radix] digits, as a number; [acc] is
    [None] until a digit has been read. *)
Fixpoint parse_digits (radix : Z) (s : string) (acc : option Z) : option Z :=
  match s with
  | String a rest =>
      match digit_value a with
      | Some d =>
          if d <? radix
          then parse_digits radix rest (Some (default 0 acc * radix + d))
          else acc
      | None => acc
      end
  | EmptyString => acc
  end.

(** A leading [-] or [+] is taken off; [-] makes the sign negative. *)
Definition strip_sign (s : string) : Z * string :=
  match s with
  | String a rest =>
      if Ascii.eqb a "-" then (-1, rest)
      else if Ascii.eqb a "+" then (1, rest)
      else (1, s)
  | EmptyString => (1, s)
  end.

(** Without a radix argument: 16 after a prefix [0x] or [0X], which is
    taken off, 10 otherwise. *)
Definition strip_prefix (s : string) : Z * string :=
  match s with
  | String a (String b rest) =>
      if Ascii.eqb a "0" && (Ascii.eqb b "x" || Ascii.eqb b "X")
      then (16, rest)
      else (10, s)
  | _ => (10, s)
  end.

(** [parseInt(s)] without a radix; [None] is [NaN].  The result is the
    mathematical integer; the handler only compares it with [0] and with
    an array length, which rounding to a double does not change. *)
Definition parseInt (s : string) : option Z :=
  let '(sign, s) := strip_sign (skip_white_space s) in
  let '(radix, s) := strip_prefix s in
  Z.mul sign <$> parse_digits radix s None.

(** [arr[i]], [undefined] rendered as [ToString] does. *)
Definition part_string (parts : list string) (i : nat) : string :=
  default "undefined" (parts !! i).

(** [arr.splice(index, 1)] for an integer [0 <= index]. *)
Definition splice1 {A} (index : Z) (arr : list A) : list A :=
  take (Z.to_nat index) arr ++ drop (S (Z.to_nat index)) arr.

(** ** Property access on objects whose keys come from the client *)

(** The function-valued members of [Object.prototype]. *)
Definition object_prototype_functions : list string :=
  [ "constructor"; "hasOwnProperty"; "isPrototypeOf";
    "propertyIsEnumerable"; "toLocaleString"; "toString"; "valueOf";
    "__defineGetter__"; "__defineSetter__";
    "__lookupGetter__"; "__lookupSetter__" ].

(** [key] names one of them. *)
Definition is_prototype_function (key : string) : bool :=
  existsb (String.eqb key) object_prototype_functions.

(** [o[key]] for an object [o] made by [JSON.parse]: an own property, or
    else what [Object.prototype] has under that name; [None] is
    [undefined]. *)
Definition get_property (o : gmap string value) (key : string) : option value :=
  match o !! key with
  | Some v => Some v
  | None =>
      if String.eqb key "__proto__" then Some VProto
      else if is_prototype_function key then Some (VFun key)
      else None
  end.

(** [x || ''] *)
Definition or_empty (x : option value) : value :=
  match x with
  | Some v => js_or v (VStr EmptyString)
  | None => VStr EmptyString
  end.

(** An object under construction: its own properties and its prototype
    ([VProto] for an object literal). *)
Record JsObject := mkJsObject {
  own : gmap string value;
  proto : value
}.

(** [{}] *)
Definition empty_object : JsObject := mkJsObject ∅ VProto.

(** Whether the object [v] has an own property [key]; an array from
    [JSON.parse] has none but its indices and [length]. *)
Definition has_own (v : value) (key : string) : bool :=
  match v with
  | VObj m => bool_decide (is_Some (m !! key))
  | _ => false
  end.

(** [o[key] = v].  Every name but ["__proto__"] becomes an own property.
    ["__proto__"] is an own property when [o] already has one or when
    the prototype of [o] has one of its own; otherwise the setter of
    [Object.prototype] runs, which replaces the prototype when [v] is an
    object and does nothing else. *)
Definition set_property (o : JsObject) (key : string) (v : value) : JsObject :=
  if String.eqb key "__proto__" then
    if bool_decide (is_Some (own o !! key)) || has_own (proto o) key
    then mkJsObject (<[key := v]> (own o)) (proto o)
    else match v with
         | VArr _ | VObj _ | VFun _ | VProto => mkJsObject (own o) v
         | _ => o
         end
  else mkJsObject (<[key := v]> (own o)) (proto o).

(** [validRecord[key] = newRecord[key] || ''] for a property key. *)
Definition fill_key (newRecord : gmap string value)
    (validRecord : JsObject) (key : string) : JsObject :=
  set_property validRecord key (or_empty (get_property newRecord key)).

(** The body of the loop of lines 149-151 for a column that has a key:
    [validRecord[col] = newRecord[col] || '']. *)
Definition fill_step (newRecord : gmap string value)
    (validRecord : JsObject) (col : value) : JsObject :=
  set_property validRecord (to_string col)
    (or_empty (get_property newRecord (to_string col))).

(** Lines 148-151 for [newRecord] an object: the loop over the columns,
    from [{}]. *)
Definition fill_record (newRecord : gmap string value) (cols : list value)
  : JsObject :=
  foldl (fill_step newRecord) empty_object cols.

(** The message V8 gives the TypeError of [null[key]]. *)
Definition null_read_message (key : string) : string :=
  "Cannot read properties of null (reading '" ++ key ++ "')".

(** How V8 prints the key in that message, without running code of the
    key: a primitive by its text; an object that has the [toString] and
    the [constructor] of [Object.prototype] as "#<Object>"; [None] for
    any other object and for an array, which are left out. *)
Definition printed_key (col : value) : option string :=
  match col with
  | VObj m =>
      match m !! "toString", m !! "constructor" with
      | None, None => Some "#<Object>"
      | _, _ => None
      end
  | VArr _ => None
  | VProto => Some "#<Object>"
  | v => Some (to_string v)
  end.

(** The message of the TypeError of [null[col]]. *)
Definition null_read_text (col : value) : string :=
  match printed_key col with
  | Some key => null_read_message key
  | None => "Cannot read properties of null"
  end.

(** The TypeError of a column that has no property key. *)
Definition key_error : Error :=
  TypeError "Cannot convert object to primitive value".

(** The loop of lines 149-151 as it runs: it throws at the first column
    that has no property key. *)
Fixpoint fill_columns (newRecord : gmap string value)
    (validRecord : JsObject) (cols : list value) : M JsObject :=
  match cols with
  | [] => ret validRecord
  | col :: rest =>
      match to_key col with
      | Some key => fill_columns newRecord (fill_key newRecord validRecord key) rest
      | None => throw key_error
      end
  end.

(** Lines 148-151 for a body that passed the test of line 141: an object,
    or [null], on which the first property read throws before the column
    is converted to a key. *)
Definition build_record (newRecord : value) (cols : list value)
  : M (gmap string value) :=
  match newRecord with
  | VObj o =>
      validRecord <- fill_columns o empty_object cols ;;
      ret (own validRecord)
  | _ =>
      match cols with
      | [] => ret ∅
      | col :: _ => throw (TypeError (null_read_text col))
      end
  end.

(** [typeof v !== 'object' || Array.isArray(v)] (line 141). *)
Definition not_record_object (v : value) : bool :=
  match v with
  | VNull | VObj _ | VProto => false      (* typeof is 'object', not an array *)
  | VArr _ => true
  | VBool _ | VNum _ | VStr _ | VFun _ => true
  end.

(** [const { columns: newColumns } = body] (line 112): [None] is
    [undefined]; destructuring [null] throws. *)
Definition destructure_columns (body : value) : M (option value) :=
  match body with
  | VNull =>
      throw (TypeError
        "Cannot destructure property 'columns' of '(intermediate value)' as it is null.")
  | VObj o => ret (o !! "columns")
  | _ => ret None
  end.

(** Lines 121-128: the columns that disappear, and the records without
    them. *)
Definition removed_columns (oldColumns newColumns : list value) : list value :=
  List.filter (fun col => negb (includes newColumns col)) oldColumns.

Definition prune_record (removedCols : list value) (record : gmap string value)
  : gmap string value :=
  foldl (fun newRecord col => delete (to_string col) newRecord) record removedCols.

(** [removedCols.forEach(col => delete newRecord[col])] as it runs (line
    126): it throws at the first removed column that has no property
    key. *)
Fixpoint delete_columns (removedCols : list value)
    (newRecord : gmap string value) : M (gmap string value) :=
  match removedCols with
  | [] => ret newRecord
  | col :: rest =>
      match to_key col with
      | Some key => delete_columns rest (delete key newRecord)
      | None => throw key_error
      end
  end.

(** [records.map(f)] for an [f] that may throw (lines 124-128). *)
Fixpoint map_records {A B} (f : A -> M B) (l : list A) : M (list B) :=
  match l with
  | [] => ret []
  | x :: rest =>
      y <- f x ;;
      ys <- map_records f rest ;;
      ret (y :: ys)
  end.

(** The messages of the refusals (lines 115, 142 and 166). *)
Definition columns_message : string :=
  "Invalid format: " ++ dq ++ "columns" ++ dq ++ " must be an array.".

Definition record_message : string :=
  "Invalid format: Request body must be a single record object.".

Definition index_message : string := "Invalid or out of bounds record index.".

(** ** The request handler *)

(** [body += chunk.toString()] over all chunks, from [''] (lines 46-49). *)
Definition body_text (req : Request) : string :=
  foldl String.append EmptyString (chunks req).

Section Server.

(** [JSON.parse] on the text of a request body; [None] when it throws.
    It belongs to the runtime, not to the repository. *)
Variable JSON_parse : string -> option value.

(** [parseBody] (lines 44-63): the chunks are appended; at ['end'] an
    empty text gives [{}], any other text is parsed; an ['error'] event
    rejects with its error. *)
Definition parseBody (req : Request) : M value :=
  match stream_error req with
  | Some e => throw e
  | None =>
      let body := body_text req in
      if negb (String.eqb body EmptyString) then
        match JSON_parse body with
        | Some v => ret v
        | None => throw (PlainError "Invalid JSON in request body")
        end
      else ret (VObj ∅)
  end.

(** Lines 111-135. *)
Definition post_columns (req : Request) : M Response :=
  body <- parseBody req ;;
  newColumns <- destructure_columns body ;;
  match newColumns with
  | Some (VArr newColumns) =>
      data <- readData ;;
      let oldColumns := columns data in
      let removedCols := removed_columns oldColumns newColumns in
      updatedRecords <- map_records (delete_columns removedCols) (records data) ;;
      let data := mkDataset newColumns updatedRecords in
      writeData data ;;;
      ret (sendResponse 200 (DataBody data))
  | _ => ret (sendResponse 400 (MessageBody columns_message))
  end.

(** Lines 138-156. *)
Definition post_records (req : Request) : M Response :=
  newRecord <- parseBody req ;;
  if not_record_object newRecord then
    ret (sendResponse 400 (MessageBody record_message))
  else
    data <- readData ;;
    validRecord <- build_record newRecord (columns data) ;;
    let data := mkDataset (columns data) (records data ++ [validRecord]) in
    writeData data ;;;
    ret (sendResponse 201 (DataBody data)).

(** Lines 159-172. *)
Definition delete_record (req : Request) : M Response :=
  let urlParts := split "/" (url req) in
  let indexStr := part_string urlParts 3 in
  let index := parseInt indexStr in
  data <- readData ;;
  match index with
  | Some index =>
      if (index <? 0) || (index >=? Z.of_nat (List.length (records data))) then
        ret (sendResponse 404 (MessageBody index_message))
      else
        let data := mkDataset (columns data) (splice1 index (records data)) in
        writeData data ;;;
        ret (sendResponse 200 (DataBody data))
  | None =>
      ret (sendResponse 404 (MessageBody index_message))
  end.

(** The body of the [try] block (lines 104-175). *)
Definition route (req : Request) : M Response :=
  if String.eqb (method req) "GET" && String.eqb (url req) "/api/data" then
    data <- readData ;;
    ret (sendResponse 200 (DataBody data))
  else if String.eqb (method req) "POST" && String.eqb (url req) "/api/columns" then
    post_columns req
  else if String.eqb (method req) "POST" && String.eqb (url req) "/api/records" then
    post_records req
  else if String.eqb (method req) "DELETE" && startsWith (url req) "/api/records/" then
    delete_record req
  else ret (sendResponse 404 (MessageBody "Not Found")).

(** [requestListener] (lines 94-181). *)
Definition requestListener (req : Request) (fs : Fs) : Response * Fs :=
  if String.eqb (method req) "OPTIONS" then (handleOptions, fs)
  else
    match route req fs with
    | (Ok res, fs') => (res, fs')
    | (Throw error, fs') =>
        (sendResponse 500
           (ErrorBody "Internal Server Error" (error_message error)), fs')
    end.

End Server.

(** ** What the store holds *)

(** The dataset a request finds: the document, or the initial dataset
    when there is no file yet. *)
Definition current (f : File) : option Dataset :=
  match f with
  | Absent => Some initialData
  | Document d => Some d
  | Unreadable _ | Corrupt _ => None
  end.

(** The file once [readData] has returned. *)
Definition after_load (f : File) : File :=
  match f with
  | Absent => Document initialData
  | f => f
  end.

(** The calls [readData] makes. *)
Definition load_calls (f : File) : list FsCall :=
  match f with
  | Absent => [ReadFile; WriteFile initialData]
  | _ => [ReadFile]
  end.

(** A dataset that is the image of a JSON text: serialising it changes
    nothing.  Every document on disk is one. *)
Definition is_json_dataset (d : Dataset) : Prop := dataset_json d = d.

(** The four data routes, as the handler tells them apart (lines 105,
    111, 138 and 159): a deletion is any DELETE whose path starts with
    ["/api/records/"], whatever follows, further ["/"] included. *)
Inductive data_route : string -> string -> Prop :=
  | route_get_data : data_route "GET" "/api/data"
  | route_post_columns : data_route "POST" "/api/columns"
  | route_post_records : data_route "POST" "/api/records"
  | route_delete_record index :
      data_route "DELETE" ("/api/records/" ++ index).

(** The [{index}] segment of a deletion: [urlParts[3]]. *)
Definition index_segment (req : Request) : string :=
  part_string (split "/" (url req)) 3.

(** A [JSON.parse] that knows a few texts, for the examples below. *)
Definition parse_sample (text : string) : option value :=
  if String.eqb text "null" then Some VNull
  else if String.eqb text "[]" then Some (VArr [])
  else if String.eqb text "{}" then Some (VObj ∅)
  else if String.eqb text ("{" ++ dq ++ "a" ++ dq ++ ":5}")
       then Some (VObj (<["a" := VNum (Finite "5")]> ∅))
  else if String.eqb text ("{" ++ dq ++ "a" ++ dq ++ ":" ++ dq ++ "x" ++ dq ++ "}")
       then Some (VObj (<["a" := VStr "x"]> ∅))
  else if String.eqb text ("{" ++ dq ++ "columns" ++ dq ++ ":[" ++ dq ++ "a" ++ dq ++ "]}")
       then Some (VObj (<["columns" := VArr [VStr "a"]]> ∅))
  else if String.eqb text
            ("{" ++ dq ++ "columns" ++ dq ++ ":[" ++ dq ++ "constructor" ++ dq ++ "]}")
       then Some (VObj (<["columns" := VArr [VStr "constructor"]]> ∅))
  else if String.eqb text
            ("{" ++ dq ++ "columns" ++ dq ++ ":[" ++ dq ++ "b" ++ dq ++ ","
                 ++ dq ++ "a" ++ dq ++ "]}")
       then Some (VObj (<["columns" := VArr [VStr "b"; VStr "a"]]> ∅))
  else if String.eqb text
            ("{" ++ dq ++ "columns" ++ dq ++ ":[{" ++ dq ++ "toString" ++ dq
                 ++ ":" ++ dq ++ "x" ++ dq ++ "}]}")
       then Some (VObj (<["columns" :=
                          VArr [VObj (<["toString" := VStr "x"]> ∅)]]> ∅))
  else None.

(** The body of [req] decodes to [v]: [parseBody] resolves with [v]. *)
Definition decodes (JSON_parse : string -> option value) (req : Request)
    (v : value) : Prop :=
  forall fs, parseBody JSON_parse req fs = (Ok v, fs).

Definition is_decimal_digit (a : ascii) : bool :=
  let n := Z.of_nat (nat_of_ascii a) in (48 <=? n) && (n <=? 57).

(** The value of a text of decimal digits, continuing from [acc]. *)
Fixpoint decimal_value (s : string) (acc : Z) : option Z :=
  match s with
  | EmptyString => Some acc
  | String a rest =>
      if is_decimal_digit a
      then decimal_value rest (acc * 10 + (Z.of_nat (nat_of_ascii a) - 48))
      else None
  end.

(** The specification's "parses as a base-10 integer": decimal digits,
    at least one, after an optional minus sign, and nothing else. *)
Definition base10_integer (s : string) : option Z :=
  match s with
  | EmptyString => None
  | String a rest =>
      if Ascii.eqb a "-" then
        match rest with
        | EmptyString => None
        | _ => Z.opp <$> decimal_value rest 0
        end
      else decimal_value s 0
  end.

(** The same words read loosely: [parseInt(s, 10)], which takes the
    longest prefix of decimal digits after white space and a sign. *)
Definition parseInt_radix10 (s : string) : option Z :=
  let '(sign, s) := strip_sign (skip_white_space s) in
  Z.mul sign <$> parse_digits 10 s None.

(** The [columns] field of a decoded body that is not [null]: [None]
    when there is none. *)
Definition columns_field (body : value) : option value :=
  match body with
  | VObj o => o !! "columns"
  | _ => None
  end.

(** [Array.isArray(v)], [None] being [undefined]. *)
Definition is_array (v : option value) : bool :=
  match v with
  | Some (VArr _) => true
  | _ => false
  end.

(** Names that every object answers to through [Object.prototype]. *)
Definition is_prototype_member (key : string) : bool :=
  String.eqb key "__proto__" || is_prototype_function key.

Definition is_string (v : value) : Prop :=
  match v with
  | VStr _ => True
  | _ => False
  end.

Definition is_function (v : value) : Prop :=
  match v with
  | VFun _ => True
  | _ => False
  end.

(** The shape [{ columns: string[], records: Record[] }] with every
    value of every record a string. *)
Definition string_shaped (d : Dataset) : Prop :=
  Forall is_string (columns d)
  /\ Forall (map_Forall (fun _ v => is_string v)) (records d).

(** The invariant of the loop of lines 149-151 when the fields of the
    body are strings or falsy. *)
Definition strings_so_far (obj : JsObject) : Prop :=
  proto obj = VProto /\ own obj !! "__proto__" = None
  /\ map_Forall (fun _ v => is_string v \/ is_function v) (own obj).

(** The size of a value, for induction through arrays and objects. *)
Fixpoint value_size (v : value) : nat :=
  match v with
  | VArr l => S (foldr (fun e acc => value_size e + acc)%nat 0%nat l)
  | VObj m => S (map_fold (fun _ e acc => value_size e + acc)%nat 0%nat m)
  | _ => 1%nat
  end.

(** A computation that leaves the file as it is or writes a JSON image. *)
Definition keeps_json {A} (m : M A) : Prop :=
  forall fs,
    file (m fs).2 = file fs
    \/ exists data, file (m fs).2 = Document (dataset_json data).

(** The document, when there is one, is a JSON image. *)
Definition store_is_json (fs : Fs) : Prop :=
  forall d, file fs = Document d -> is_json_dataset d.

(** The requests of a run, handled one after the other. *)
Definition serve (JSON_parse : string -> option value)
    (reqs : list Request) (fs : Fs) : Fs :=
  foldl (fun fs req => (requestListener JSON_parse req fs).2) fs reqs.

(** ** What a request can do to a store that holds a dataset *)

(** The store once [readData] has returned. *)
Definition loaded (fs : Fs) : Fs :=
  mkFs (after_load (file fs)) (calls fs ++ load_calls (file fs)).

(** The store once [readData] and then [writeData(data)] have returned. *)
Definition written (fs : Fs) (data : Dataset) : Fs :=
  mkFs (Document (dataset_json data))
       (calls (loaded fs) ++ [WriteFile (dataset_json data)]).

(** The datasets the handler passes to [writeData], from the dataset [d]
    it has read: lines 130-131, line 153 (with the record of lines
    148-151, which is empty when the body is [null] and there is no
    column), and line 169. *)
Inductive mutation (d : Dataset) : Dataset -> Prop :=
  | mutation_columns newColumns :
      mutation d
        (mkDataset newColumns
           (map (prune_record (removed_columns (columns d) newColumns))
                (records d)))
  | mutation_append newRecord :
      mutation d
        (mkDataset (columns d)
           (records d ++ [own (fill_record newRecord (columns d))]))
  | mutation_append_empty :
      columns d = [] ->
      mutation d (mkDataset (columns d) (records d ++ [∅]))
  | mutation_delete index :
      0 <= index < Z.of_nat (List.length (records d)) ->
      mutation d (mkDataset (columns d) (splice1 index (records d))).

Definition is_data (p : Payload) : bool :=
  match p with
  | DataBody _ => true
  | _ => false
  end.

(** The ways [requestListener] can end on a store that holds [d]: the
    preflight answer; a refusal or an error before the store is read; an
    answer after the store was read and not written; a write of a
    mutation of [d], answered with the dataset written. *)
Inductive handled (fs : Fs) (d : Dataset) : Response * Fs -> Prop :=
  | handled_preflight : handled fs d (handleOptions, fs)
  | handled_before_load code payload :
      code ∈ [400; 404; 500] -> is_data payload = false ->
      handled fs d (sendResponse code payload, fs)
  | handled_read :
      handled fs d (sendResponse 200 (DataBody d), loaded fs)
  | handled_after_load code payload :
      code ∈ [404; 500] -> is_data payload = false ->
      handled fs d (sendResponse code payload, loaded fs)
  | handled_write code data :
      code ∈ [200; 201] -> mutation d data ->
      handled fs d (sendResponse code (DataBody data), written fs data).

(** Every key of every record is the key of a column. *)
Definition keys_within_columns (d : Dataset) : Prop :=
  Forall (fun record : gmap string value =>
            dom record ⊆ list_to_set (to_string <$> columns d))
         (records d).

(** A store whose file cannot be loaded: unreadable for a reason other
    than ENOENT, or not JSON. *)
Definition unloadable (f : File) : Prop :=
  match f with
  | Unreadable e => has_code e "ENOENT" = false
  | Corrupt _ => True
  | Absent | Document _ => False
  end.

(** The message of the error [readData] throws on such a store. *)
Definition load_error (f : File) : string :=
  match f with
  | Unreadable e => error_message e
  | Corrupt m => m
  | Absent | Document _ => EmptyString
  end.

(** The headers [sendResponse] writes. *)
Definition json_headers : list (string * string) :=
  ("Content-Type", "application/json") :: cors_headers.

(** A computation whose result, when it has one, was made by
    [sendResponse] with one of the statuses of the [try] block. *)
Definition answers (m : M Response) : Prop :=
  forall fs res fs',
    m fs = (Ok res, fs') ->
    exists code payload,
      res = sendResponse code payload /\ code ∈ [200; 201; 400; 404].

(** Whether the character [c] occurs in [s]. *)
Fixpoint has_char (c : ascii) (s : string) : bool :=
  match s with
  | EmptyString => false
  | String a rest => Ascii.eqb a c || has_char c rest
  end.

(** The four data routes as the specification lists them:
    [DELETE /api/records/{index}] with [{index}] one path segment, a
    text without ["/"]. *)
Inductive listed_route : string -> string -> Prop :=
  | listed_get_data : listed_route "GET" "/api/data"
  | listed_post_columns : listed_route "POST" "/api/columns"
  | listed_post_records : listed_route "POST" "/api/records"
  | listed_delete_record index :
      has_char "/" index = false ->
      listed_route "DELETE" ("/api/records/" ++ index).

(** The answer of line 175. *)
Definition not_found : Response := sendResponse 404 (MessageBody "Not Found").

(** A computation whose result, when it has one, is not the answer of
    line 175. *)
Definition found (m : M Response) : Prop :=
  forall fs res fs', m fs = (Ok res, fs') -> res <> not_found.

(** Membership in a list given by its elements. *)
Ltac in_list :=
  repeat first [apply list_elem_of_here | apply list_elem_of_further].

(** ** Property keys *)

Lemma value_size_elem l e : e ∈ l -> (value_size e < value_size (VArr l))%nat.
Proof.
  intros He. simpl. apply Nat.lt_succ_r.
  induction He as [|x y l He IH]; simpl; lia.
Qed.

Lemma value_size_field (m : gmap string value) k e :
  m !! k = Some e -> (value_size e < value_size (VObj m))%nat.
Proof.
  intros He. simpl. apply Nat.lt_succ_r.
  rewrite <- (insert_delete_id m k e He).
  rewrite map_fold_insert_L.
  - lia.
  - intros. lia.
  - apply lookup_delete_eq.
Qed.

(** When a value has a property key, the key is its [to_string]. *)
Lemma to_key_to_string v k : to_key v = Some k -> k = to_string v.
Proof.
  remember (value_size v) as n eqn:Hn. revert v k Hn.
  induction n as [n IH] using lt_wf_ind. intros v k -> Hk.
  destruct v as [| b | x | s | l | m | f |]; simpl in Hk;
    try (by injection Hk as <-).
  - destruct (_ l) as [ss|] eqn:Hss in Hk; [|done].
    injection Hk as <-. simpl. f_equal.
    assert (Hl : forall e, e ∈ l -> forall k, to_key e = Some k -> k = to_string e).
    { intros e He k' Hk'. by apply (IH _ (value_size_elem _ _ He) e). }
    clear IH. revert ss Hss. induction l as [|e l IHl]; intros ss Hss.
    + by injection Hss as <-.
    + simpl in Hss.
      destruct (match e with VNull => Some EmptyString | _ => to_key e end)
        as [s|] eqn:He; [|done].
      destruct (_ l) as [ss'|] eqn:Hss' in Hss; [|done].
      injection Hss as <-. simpl. f_equal.
      * destruct e; try (injection He as <-; done);
          apply (Hl _ (list_elem_of_here _ _) _ He).
      * apply IHl; [|done]. intros e' He'. apply Hl. by apply list_elem_of_further.
  - destruct (m !! "toString"); [done|by injection Hk as <-].
Qed.

Lemma has_key_to_key col : has_key col = true -> to_key col = Some (to_string col).
Proof.
  unfold has_key. destruct (to_key col) as [k|] eqn:Hk; [|done].
  intros _. by rewrite <- (to_key_to_string _ _ Hk).
Qed.

Lemma has_key_string col : is_string col -> has_key col = true.
Proof. by destruct col. Qed.

(** The loop of lines 149-151 makes the record of [fill_step] when every
    column has a key, and throws otherwise; it does not touch the
    store. *)
Lemma fill_columns_result (o : gmap string value) obj cols fs :
  fill_columns o obj cols fs
  = (if forallb has_key cols then Ok (foldl (fill_step o) obj cols)
     else Throw key_error, fs).
Proof.
  revert obj. induction cols as [|c l IH]; intros obj; simpl; [done|].
  unfold has_key at 1. destruct (to_key c) as [k|] eqn:Hk; simpl; [|done].
  rewrite IH. by rewrite (to_key_to_string _ _ Hk).
Qed.

Lemma build_record_object (o : gmap string value) cols fs :
  build_record (VObj o) cols fs
  = (if forallb has_key cols then Ok (own (fill_record o cols))
     else Throw key_error, fs).
Proof.
  unfold build_record, bind. rewrite fill_columns_result.
  by destruct (forallb has_key cols).
Qed.

Lemma build_record_store v cols fs : (build_record v cols fs).2 = fs.
Proof.
  destruct v; try (simpl; by destruct cols).
  rewrite build_record_object. by destruct (forallb has_key cols).
Qed.

(** Line 126 deletes the keys of [prune_record] when every removed column
    has a key, and throws otherwise. *)
Lemma delete_columns_result removedCols (record : gmap string value) fs :
  delete_columns removedCols record fs
  = (if forallb has_key removedCols then Ok (prune_record removedCols record)
     else Throw key_error, fs).
Proof.
  revert record. induction removedCols as [|c l IH]; intros record; simpl;
    [done|].
  unfold has_key at 1. destruct (to_key c) as [k|] eqn:Hk; simpl; [|done].
  rewrite IH. by rewrite (to_key_to_string _ _ Hk).
Qed.

(** Lines 124-128: with no record nothing is converted; with a record,
    every removed column is. *)
Lemma prune_records_result removedCols (recs : list (gmap string value)) fs :
  map_records (delete_columns removedCols) recs fs
  = (match recs with
     | [] => Ok []
     | _ => if forallb has_key removedCols
            then Ok (map (prune_record removedCols) recs)
            else Throw key_error
     end, fs).
Proof.
  induction recs as [|r l IH]; simpl; [done|].
  unfold bind. rewrite delete_columns_result.
  destruct (forallb has_key removedCols); [|done].
  rewrite IH. by destruct l.
Qed.

(** ** The persistence store *)

Lemma readData_document d cs :
  readData (mkFs (Document d) cs) = (Ok d, mkFs (Document d) (cs ++ [ReadFile])).
Proof. reflexivity. Qed.

Lemma readData_absent cs :
  readData (mkFs Absent cs)
  = (Ok initialData,
     mkFs (Document initialData) (cs ++ [ReadFile; WriteFile initialData])).
Proof.
  unfold readData, try_catch, bind, fs_readFile, fs_writeFile; simpl.
  by rewrite <- app_assoc.
Qed.

(** [readData] on a store that holds a dataset. *)
Lemma readData_current fs d :
  current (file fs) = Some d ->
  readData fs
  = (Ok d, mkFs (after_load (file fs)) (calls fs ++ load_calls (file fs))).
Proof.
  destruct fs as [f cs]; simpl. destruct f; simpl; intros H; simplify_eq.
  - apply readData_absent.
  - apply readData_document.
Qed.

Lemma current_after_load f : current (after_load f) = current f.
Proof. by destruct f. Qed.

Lemma readData_corrupt m cs :
  readData (mkFs (Corrupt m) cs)
  = (Throw (SyntaxError m), mkFs (Corrupt m) (cs ++ [ReadFile])).
Proof. reflexivity. Qed.

Lemma readData_unreadable e cs :
  error_code e <> Some "ENOENT" ->
  readData (mkFs (Unreadable e) cs)
  = (Throw e, mkFs (Unreadable e) (cs ++ [ReadFile])).
Proof.
  intros Hcode.
  unfold readData, try_catch, bind, fs_readFile, has_code; simpl.
  destruct (error_code e) as [code|]; [|done].
  destruct (String.eqb_spec code "ENOENT") as [->|Hne]; done.
Qed.

(** C9. When [readData] finds no document it makes the dataset
    [{columns: [], records: []}], writes it to the file at once and
    returns it; a read failure other than ENOENT, and a parse failure,
    are thrown to the caller, and the file is not written. *)
Theorem readData_absent_or_failure fs :
  (file fs = Absent ->
   readData fs
   = (Ok initialData,
      mkFs (Document initialData)
           (calls fs ++ [ReadFile; WriteFile initialData])))
  /\ (forall e, file fs = Unreadable e -> error_code e <> Some "ENOENT" ->
      readData fs = (Throw e, mkFs (file fs) (calls fs ++ [ReadFile])))
  /\ (forall m, file fs = Corrupt m ->
      readData fs
      = (Throw (SyntaxError m), mkFs (file fs) (calls fs ++ [ReadFile]))).
Proof.
  destruct fs as [f cs]; simpl. repeat split.
  - intros ->. apply readData_absent.
  - intros e -> Hcode. by apply readData_unreadable.
  - intros m ->. apply readData_corrupt.
Qed.

Lemma readData_absent_or_failure_witness :
  readData (mkFs Absent [])
  = (Ok initialData,
     mkFs (Document initialData) [ReadFile; WriteFile initialData])
  /\ readData (mkFs (Unreadable (FsError "EACCES" "permission denied")) [])
     = (Throw (FsError "EACCES" "permission denied"),
        mkFs (Unreadable (FsError "EACCES" "permission denied")) [ReadFile])
  /\ readData (mkFs (Corrupt "Unexpected end of JSON input") [])
     = (Throw (SyntaxError "Unexpected end of JSON input"),
        mkFs (Corrupt "Unexpected end of JSON input") [ReadFile]).
Proof.
  split; [|split].
  - apply (proj1 (readData_absent_or_failure (mkFs Absent []))). reflexivity.
  - apply (proj1 (proj2 (readData_absent_or_failure
             (mkFs (Unreadable (FsError "EACCES" "permission denied")) [])))).
    + reflexivity.
    + discriminate.
  - apply (proj2 (proj2 (readData_absent_or_failure
             (mkFs (Corrupt "Unexpected end of JSON input") [])))).
    reflexivity.
Defined.

(** ** Preflight and unmatched requests *)

(** C10. An OPTIONS request, whatever its path, is answered 204 with the
    three cross-origin headers (any origin; the methods GET, POST, DELETE
    and OPTIONS; the header Content-Type), a content length of zero and
    no body, and the store is not accessed: no call to [fs] is made and
    the file is as it was. *)
Theorem options_no_store_access JSON_parse req fs :
  method req = "OPTIONS" ->
  let '(res, fs') := requestListener JSON_parse req fs in
  status res = 204
  /\ headers res
     = [ ("Access-Control-Allow-Origin", "*");
         ("Access-Control-Allow-Methods", "GET, POST, DELETE, OPTIONS");
         ("Access-Control-Allow-Headers", "Content-Type");
         ("Content-Length", "0") ]
  /\ body res = None
  /\ calls fs' = calls fs
  /\ file fs' = file fs.
Proof.
  intros Hm. unfold requestListener. rewrite Hm. simpl. done.
Qed.

Lemma options_no_store_access_witness :
  let req := mkRequest "OPTIONS" "/anything/at/all" ["{"] None in
  let '(res, fs') := requestListener parse_sample req (mkFs Absent []) in
  status res = 204
  /\ headers res
     = [ ("Access-Control-Allow-Origin", "*");
         ("Access-Control-Allow-Methods", "GET, POST, DELETE, OPTIONS");
         ("Access-Control-Allow-Headers", "Content-Type");
         ("Content-Length", "0") ]
  /\ body res = None /\ fs' = mkFs Absent [].
Proof.
  pose proof (options_no_store_access parse_sample
                (mkRequest "OPTIONS" "/anything/at/all" ["{"] None)
                (mkFs Absent []) eq_refl) as H.
  simpl in *. destruct H as (H1 & H2 & H3 & _). done.
Defined.

Lemma append_cons a (s t : string) : String a s ++ t = String a (s ++ t).
Proof. reflexivity. Qed.

Lemma startsWith_app s p :
  startsWith s p = true -> exists rest, s = p ++ rest.
Proof.
  unfold startsWith. revert s.
  induction p as [|a p IH]; intros s H; simpl in *.
  - by exists s.
  - destruct s as [|b s]; [done|].
    cbn in H. destruct (ascii_dec a b) as [->|]; [|done].
    destruct (IH _ H) as [rest ->]. by exists rest.
Qed.

Lemma startsWith_append (p s : string) : startsWith (p ++ s) p = true.
Proof.
  unfold startsWith. induction p as [|a p IH].
  - by destruct s.
  - rewrite append_cons. simpl. by destruct (ascii_dec a a).
Qed.

Lemma found_ret code payload :
  sendResponse code payload <> not_found -> found (ret (sendResponse code payload)).
Proof. by intros Hne fs res fs' [= <- <-]. Qed.

Lemma found_bind {A} (m : M A) (k : A -> M Response) :
  (forall a, found (k a)) -> found (bind m k).
Proof.
  intros Hk fs res fs'. unfold bind.
  destruct (m fs) as [[a|e] fs1]; [apply Hk|done].
Qed.

Lemma found_route JSON_parse req :
  data_route (method req) (url req) -> found (route JSON_parse req).
Proof.
  intros Hroute. unfold route.
  inversion Hroute as [Hm Hu|Hm Hu|Hm Hu|index Hm Hu];
    [simpl; clear Hm Hu ..|rewrite startsWith_append, Hu; simpl].
  - apply found_bind. intros d. by apply found_ret.
  - unfold post_columns. apply found_bind. intros v.
    apply found_bind. intros [[| | | |newColumns| | |]|];
      try by apply found_ret.
    apply found_bind. intros d. apply found_bind. intros updatedRecords.
    apply found_bind. intros _. by apply found_ret.
  - unfold post_records. apply found_bind. intros v.
    destruct (not_record_object v); [by apply found_ret|].
    apply found_bind. intros d. apply found_bind. intros r.
    apply found_bind. intros _. by apply found_ret.
  - unfold delete_record. apply found_bind. intros d.
    destruct (parseInt _) as [index'|]; [|by apply found_ret].
    destruct (_ || _); [by apply found_ret|].
    apply found_bind. intros _. by apply found_ret.
Qed.

Lemma route_unmatched JSON_parse req :
  ~ data_route (method req) (url req) ->
  route JSON_parse req = ret not_found.
Proof.
  intros Hroute. unfold route.
  destruct (String.eqb_spec (method req) "GET") as [Hm|_];
    [destruct (String.eqb_spec (url req) "/api/data") as [Hu|_]|]; simpl.
  { exfalso. apply Hroute. rewrite Hm, Hu. constructor. }
  all: destruct (String.eqb_spec (method req) "POST") as [Hp|_]; simpl.
  all: try (destruct (String.eqb_spec (url req) "/api/columns") as [Hu|_];
            [exfalso; apply Hroute; rewrite Hp, Hu; constructor|]; simpl;
            destruct (String.eqb_spec (url req) "/api/records") as [Hu|_];
            [exfalso; apply Hroute; rewrite Hp, Hu; constructor|]; simpl).
  all: destruct (String.eqb_spec (method req) "DELETE") as [Hd|_]; simpl;
    try done.
  all: destruct (startsWith (url req) "/api/records/") eqn:Hs; try done.
  all: exfalso; apply Hroute; apply startsWith_app in Hs as [rest ->];
    rewrite Hd; constructor.
Qed.

(** C3, as the handler has it. A deletion is matched by the start of its
    path alone: the handler's four routes are GET /api/data,
    POST /api/columns, POST /api/records and DELETE with any path that
    starts with [/api/records/], further [/] included.  A request whose
    method is not OPTIONS and that is none of these is answered 404 with
    the body [{"message": "Not Found"}] and the store is not touched; a
    request that is one of these is never given that answer. *)
Theorem unmatched_route_not_found JSON_parse req fs :
  method req <> "OPTIONS" ->
  let '(res, fs') := requestListener JSON_parse req fs in
  (~ data_route (method req) (url req) ->
   status res = 404
   /\ (payload_value <$> body res)
      = Some (VObj (<["message" := VStr "Not Found"]> ∅))
   /\ res = sendResponse 404 (MessageBody "Not Found")
   /\ fs' = fs)
  /\ (data_route (method req) (url req) ->
      res <> sendResponse 404 (MessageBody "Not Found")).
Proof.
  intros Hopt.
  pose proof (found_route JSON_parse req) as Hfound.
  pose proof (route_unmatched JSON_parse req) as Hnone.
  unfold requestListener.
  destruct (String.eqb_spec (method req) "OPTIONS") as [|_]; [done|].
  destruct (route JSON_parse req fs) as [[res|e] fs'] eqn:Hr.
  - split; intros Hroute.
    + rewrite (Hnone Hroute) in Hr. by injection Hr as <- <-.
    + by apply (Hfound Hroute fs res fs').
  - split; intros Hroute; [|discriminate].
    rewrite (Hnone Hroute) in Hr. discriminate Hr.
Qed.

Lemma unmatched_route_not_found_witness :
  (let req := mkRequest "PUT" "/api/data" [] None in
   let '(res, fs') := requestListener parse_sample req (mkFs Absent []) in
   status res = 404 /\ fs' = mkFs Absent [])
  /\ (let req := mkRequest "DELETE" "/api/records/7" [] None in
      (requestListener parse_sample req (mkFs Absent [])).1
      <> sendResponse 404 (MessageBody "Not Found")).
Proof.
  assert (Hroute : ~ data_route "PUT" "/api/data") by (intros H; inversion H).
  split.
  - pose proof (unmatched_route_not_found parse_sample
                  (mkRequest "PUT" "/api/data" [] None) (mkFs Absent [])
                  ltac:(discriminate)) as H.
    simpl in *. destruct H as [H _].
    destruct (H Hroute) as (H1 & _ & _ & H4). done.
  - pose proof (unmatched_route_not_found parse_sample
                  (mkRequest "DELETE" "/api/records/7" [] None)
                  (mkFs Absent []) ltac:(discriminate)) as H.
    simpl in *. destruct H as [_ H]. apply H.
    apply (route_delete_record "7").
Defined.

(** C3 as the specification states it does not hold, with [{index}] one
    path segment: DELETE /api/records/0/extra/parts is none of the four
    routes listed, and on a store with one record it is answered 200 and
    the record is deleted. *)
Lemma unmatched_route_deletes_record :
  ~ (forall JSON_parse req fs,
        method req <> "OPTIONS" ->
        ~ listed_route (method req) (url req) ->
        status (requestListener JSON_parse req fs).1 = 404
        /\ (payload_value <$> body (requestListener JSON_parse req fs).1)
           = Some (VObj (<["message" := VStr "Not Found"]> ∅)))
  /\ (let req := mkRequest "DELETE" "/api/records/0/extra/parts" [] None in
      ~ listed_route (method req) (url req)
      /\ requestListener parse_sample req
           (mkFs (Document (mkDataset [] [∅])) [])
         = (sendResponse 200 (DataBody (mkDataset [] [])),
            mkFs (Document (mkDataset [] []))
              [ReadFile; WriteFile (mkDataset [] [])])).
Proof.
  assert (Hroute : ~ listed_route "DELETE" "/api/records/0/extra/parts").
  { intros H. inversion H as [| | |index Hchar Hm Hu].
    change (index = "0/extra/parts") in Hu. by rewrite Hu in Hchar. }
  split; [|split; [exact Hroute|reflexivity]].
  intros H.
  destruct (H parse_sample
              (mkRequest "DELETE" "/api/records/0/extra/parts" [] None)
              (mkFs (Document (mkDataset [] [∅])) [])
              ltac:(discriminate) Hroute) as [Hs _].
  discriminate Hs.
Qed.

(** ** Decoding the request body *)

Lemma parseBody_empty JSON_parse req fs :
  stream_error req = None -> body_text req = EmptyString ->
  parseBody JSON_parse req fs = (Ok (VObj ∅), fs).
Proof. intros He Hb. unfold parseBody. by rewrite He, Hb. Qed.

Lemma parseBody_parsed JSON_parse req fs v :
  stream_error req = None -> body_text req <> EmptyString ->
  JSON_parse (body_text req) = Some v ->
  parseBody JSON_parse req fs = (Ok v, fs).
Proof.
  intros He Hb Hp. unfold parseBody. rewrite He, Hp.
  by destruct (String.eqb_spec (body_text req) EmptyString).
Qed.

Lemma parseBody_malformed JSON_parse req fs :
  stream_error req = None -> body_text req <> EmptyString ->
  JSON_parse (body_text req) = None ->
  parseBody JSON_parse req fs
  = (Throw (PlainError "Invalid JSON in request body"), fs).
Proof.
  intros He Hb Hp. unfold parseBody. rewrite He, Hp.
  by destruct (String.eqb_spec (body_text req) EmptyString).
Qed.

Lemma parseBody_stream_error JSON_parse req fs e :
  stream_error req = Some e -> parseBody JSON_parse req fs = (Throw e, fs).
Proof. intros He. unfold parseBody. by rewrite He. Qed.

(** ** Which branch of the handler a request takes *)

Lemma route_get JSON_parse req :
  method req = "GET" -> url req = "/api/data" ->
  route JSON_parse req
  = (data <- readData ;; ret (sendResponse 200 (DataBody data))).
Proof. intros Hm Hu. unfold route. by rewrite Hm, Hu. Qed.

Lemma route_columns JSON_parse req :
  method req = "POST" -> url req = "/api/columns" ->
  route JSON_parse req = post_columns JSON_parse req.
Proof. intros Hm Hu. unfold route. by rewrite Hm, Hu. Qed.

Lemma route_records JSON_parse req :
  method req = "POST" -> url req = "/api/records" ->
  route JSON_parse req = post_records JSON_parse req.
Proof. intros Hm Hu. unfold route. by rewrite Hm, Hu. Qed.

Lemma route_delete JSON_parse req :
  method req = "DELETE" -> startsWith (url req) "/api/records/" = true ->
  route JSON_parse req = delete_record req.
Proof. intros Hm Hu. unfold route. by rewrite Hm, Hu. Qed.

Lemma requestListener_route JSON_parse req fs :
  method req <> "OPTIONS" ->
  requestListener JSON_parse req fs
  = match route JSON_parse req fs with
    | (Ok res, fs') => (res, fs')
    | (Throw error, fs') =>
        (sendResponse 500
           (ErrorBody "Internal Server Error" (error_message error)), fs')
    end.
Proof.
  intros Hm. unfold requestListener.
  by destruct (String.eqb_spec (method req) "OPTIONS").
Qed.

(** GET /api/data on a store that holds [d]: 200 with [d]. *)
Lemma get_data_result JSON_parse req fs d :
  method req = "GET" -> url req = "/api/data" ->
  current (file fs) = Some d ->
  requestListener JSON_parse req fs
  = (sendResponse 200 (DataBody d),
     mkFs (after_load (file fs)) (calls fs ++ load_calls (file fs))).
Proof.
  intros Hm Hu Hcur.
  rewrite requestListener_route by (rewrite Hm; discriminate).
  rewrite route_get by done.
  unfold bind. by rewrite (readData_current _ _ Hcur).
Qed.

(** ** POST /api/records: bodies that are refused *)

(** C1, as the handler has it. A POST /api/records request whose body is
    not empty and is not JSON text is answered 500, with the message of
    the error [parseBody] rejects with; the store is not accessed, so
    the dataset is unchanged. *)
Theorem malformed_record_body_500 JSON_parse req fs :
  method req = "POST" -> url req = "/api/records" ->
  stream_error req = None ->
  body_text req <> EmptyString ->
  JSON_parse (body_text req) = None ->
  requestListener JSON_parse req fs
  = (sendResponse 500
       (ErrorBody "Internal Server Error" "Invalid JSON in request body"),
     fs).
Proof.
  intros Hm Hu He Hb Hp.
  rewrite requestListener_route by (rewrite Hm; discriminate).
  rewrite route_records by done.
  unfold post_records, bind.
  by rewrite parseBody_malformed.
Qed.

Lemma malformed_record_body_500_witness :
  let req := mkRequest "POST" "/api/records" ["{"; "oops"] None in
  body_text req <> EmptyString
  /\ parse_sample (body_text req) = None
  /\ requestListener parse_sample req (mkFs (Document initialData) [])
     = (sendResponse 500
          (ErrorBody "Internal Server Error" "Invalid JSON in request body"),
        mkFs (Document initialData) []).
Proof.
  split; [discriminate|]. split; [reflexivity|].
  apply (malformed_record_body_500 parse_sample
           (mkRequest "POST" "/api/records" ["{"; "oops"] None));
    solve [reflexivity | discriminate].
Defined.

(** C1 as the specification states it (status 400) does not hold. *)
Lemma malformed_record_body_not_400 :
  ~ (forall JSON_parse req fs,
        method req = "POST" -> url req = "/api/records" ->
        stream_error req = None ->
        body_text req <> EmptyString ->
        JSON_parse (body_text req) = None ->
        status (requestListener JSON_parse req fs).1 = 400
        /\ file (requestListener JSON_parse req fs).2 = file fs).
Proof.
  intros H.
  destruct (H parse_sample (mkRequest "POST" "/api/records" ["{"] None)
              (mkFs (Document initialData) [])) as [Hs _];
    try solve [reflexivity | discriminate].
Qed.

(** X6. POST /api/records with a decoded body that is neither an object
    nor [null] (an array, a string, a number, a boolean) is refused with
    400, and the store is not accessed. *)
Lemma record_body_refused JSON_parse req fs v :
  method req = "POST" -> url req = "/api/records" ->
  decodes JSON_parse req v ->
  not_record_object v = true ->
  requestListener JSON_parse req fs
  = (sendResponse 400 (MessageBody record_message), fs).
Proof.
  intros Hm Hu Hd Hv.
  rewrite requestListener_route by (rewrite Hm; discriminate).
  rewrite route_records by done.
  unfold post_records, bind. by rewrite Hd, Hv.
Qed.

(** What POST /api/records does with a body that passed line 141, on a
    store that holds [d]. *)
Lemma post_records_accepted JSON_parse req fs v d :
  method req = "POST" -> url req = "/api/records" ->
  decodes JSON_parse req v ->
  not_record_object v = false ->
  current (file fs) = Some d ->
  requestListener JSON_parse req fs
  = let fs1 := mkFs (after_load (file fs)) (calls fs ++ load_calls (file fs)) in
    match build_record v (columns d) fs1 with
    | (Ok validRecord, _) =>
        let data := mkDataset (columns d) (records d ++ [validRecord]) in
        (sendResponse 201 (DataBody data),
         mkFs (Document (dataset_json data))
              (calls fs1 ++ [WriteFile (dataset_json data)]))
    | (Throw error, _) =>
        (sendResponse 500
           (ErrorBody "Internal Server Error" (error_message error)), fs1)
    end.
Proof.
  intros Hm Hu Hd Hv Hcur.
  rewrite requestListener_route by (rewrite Hm; discriminate).
  rewrite route_records by done.
  unfold post_records, bind. rewrite Hd, Hv.
  rewrite (readData_current _ _ Hcur). cbv zeta.
  pose proof (build_record_store v (columns d)
                (mkFs (after_load (file fs))
                      (calls fs ++ load_calls (file fs)))) as Hstore.
  destruct (build_record v (columns d) _) as [[r|e] fs2]; simpl in *;
    by subst.
Qed.

(** C2 at the body [null]. A POST /api/records request whose body
    decodes to [null] is not answered 400: [null] passes the test of
    line 141.  When the dataset has no column a record [{}] is appended
    and the answer is 201; otherwise reading the first column from
    [null] throws and the answer is 500, the dataset being left as it
    was; when that column is a string, the error text names it. *)
Theorem null_record_body_not_refused JSON_parse req fs d :
  method req = "POST" -> url req = "/api/records" ->
  decodes JSON_parse req VNull ->
  current (file fs) = Some d ->
  let out := requestListener JSON_parse req fs in
  match columns d with
  | [] =>
      let data := mkDataset [] (records d ++ [∅]) in
      out = (sendResponse 201 (DataBody data),
             mkFs (Document (dataset_json data))
                  ((calls fs ++ load_calls (file fs))
                   ++ [WriteFile (dataset_json data)]))
  | col :: _ =>
      status out.1 = 500
      /\ (exists text,
            body out.1 = Some (ErrorBody "Internal Server Error" text)
            /\ forall s, col = VStr s -> text = null_read_message s)
      /\ out.2 = mkFs (after_load (file fs)) (calls fs ++ load_calls (file fs))
  end.
Proof.
  intros Hm Hu Hd Hcur. cbv zeta.
  rewrite (post_records_accepted _ _ _ VNull d) by done.
  simpl. destruct (columns d) as [|col cols] eqn:Hc; simpl; [done|].
  split; [done|]. split; [|done].
  exists (null_read_text col). split; [done|]. by intros s ->.
Qed.

Lemma null_record_body_not_refused_witness :
  let req := mkRequest "POST" "/api/records" ["nu"; "ll"] None in
  let out := requestListener parse_sample req
               (mkFs (Document (mkDataset [VStr "a"] [])) []) in
  decodes parse_sample req VNull
  /\ status out.1 = 500
  /\ (exists text,
        body out.1 = Some (ErrorBody "Internal Server Error" text)
        /\ forall s, VStr "a" = VStr s -> text = null_read_message s)
  /\ out.2 = mkFs (Document (mkDataset [VStr "a"] [])) [ReadFile]
  /\ requestListener parse_sample req (mkFs Absent [])
     = (sendResponse 201 (DataBody (mkDataset [] [∅])),
        mkFs (Document (mkDataset [] [∅]))
             [ReadFile; WriteFile initialData; WriteFile (mkDataset [] [∅])]).
Proof.
  split; [intros fs; reflexivity|].
  pose proof (null_record_body_not_refused parse_sample
        (mkRequest "POST" "/api/records" ["nu"; "ll"] None)
        (mkFs (Document (mkDataset [VStr "a"] [])) [])
        (mkDataset [VStr "a"] [])
        eq_refl eq_refl (fun fs => eq_refl) eq_refl) as (H1 & H2 & H3).
  split; [exact H1|]. split; [exact H2|]. split; [exact H3|].
  apply (null_record_body_not_refused parse_sample
        (mkRequest "POST" "/api/records" ["nu"; "ll"] None)
        (mkFs Absent []) initialData
        eq_refl eq_refl (fun fs => eq_refl) eq_refl).
Defined.

(** ** DELETE /api/records/{index} *)

(** What a deletion does on a store that holds [d]. *)
Lemma delete_record_result JSON_parse req fs d :
  method req = "DELETE" -> startsWith (url req) "/api/records/" = true ->
  current (file fs) = Some d ->
  requestListener JSON_parse req fs
  = let fs1 := mkFs (after_load (file fs)) (calls fs ++ load_calls (file fs)) in
    match parseInt (index_segment req) with
    | Some index =>
        if (index <? 0) || (index >=? Z.of_nat (List.length (records d)))
        then (sendResponse 404 (MessageBody index_message), fs1)
        else
          let data := mkDataset (columns d) (splice1 index (records d)) in
          (sendResponse 200 (DataBody data),
           mkFs (Document (dataset_json data))
                (calls fs1 ++ [WriteFile (dataset_json data)]))
    | None => (sendResponse 404 (MessageBody index_message), fs1)
    end.
Proof.
  intros Hm Hu Hcur.
  rewrite requestListener_route by (rewrite Hm; discriminate).
  rewrite route_delete by done.
  unfold delete_record, bind. rewrite (readData_current _ _ Hcur).
  fold (index_segment req).
  destruct (parseInt (index_segment req)) as [index|]; [|done].
  by destruct ((index <? 0) || (index >=? Z.of_nat (List.length (records d)))).
Qed.

Lemma decimal_digit_value a :
  is_decimal_digit a = true ->
  digit_value a = Some (Z.of_nat (nat_of_ascii a) - 48).
Proof. unfold is_decimal_digit, digit_value. by intros ->. Qed.

Lemma decimal_digit_not a b :
  is_decimal_digit a = true -> is_decimal_digit b = false -> Ascii.eqb a b = false.
Proof.
  intros Ha Hb. destruct (Ascii.eqb_spec a b) as [->|]; [congruence|done].
Qed.

Lemma decimal_digit_not_white a :
  is_decimal_digit a = true -> is_white_space a = false.
Proof. unfold is_decimal_digit, is_white_space. lia. Qed.

Lemma parse_digits_decimal s acc v :
  decimal_value s acc = Some v -> parse_digits 10 s (Some acc) = Some v.
Proof.
  revert acc. induction s as [|a s IH]; intros acc; simpl; [done|].
  destruct (is_decimal_digit a) eqn:Ha; [|done].
  rewrite (decimal_digit_value _ Ha). intros H.
  unfold is_decimal_digit in Ha.
  replace (Z.of_nat (nat_of_ascii a) - 48 <? 10) with true by lia.
  by apply IH.
Qed.

Lemma parse_digits_decimal_start s v :
  s <> EmptyString -> decimal_value s 0 = Some v ->
  parse_digits 10 s None = Some v.
Proof.
  destruct s as [|a s]; [done|]. intros _. simpl.
  destruct (is_decimal_digit a) eqn:Ha; [|done].
  rewrite (decimal_digit_value _ Ha). intros H.
  unfold is_decimal_digit in Ha.
  replace (Z.of_nat (nat_of_ascii a) - 48 <? 10) with true by lia.
  by apply parse_digits_decimal.
Qed.

(** Digits stay as they are under [strip_prefix]. *)
Lemma strip_prefix_decimal s v acc :
  decimal_value s acc = Some v -> strip_prefix s = (10, s).
Proof.
  destruct s as [|a [|b s]]; simpl; try done.
  destruct (is_decimal_digit a) eqn:Ha; [|done].
  destruct (is_decimal_digit b) eqn:Hb; [|done]. intros _.
  rewrite (decimal_digit_not b "x"), (decimal_digit_not b "X") by done.
  by rewrite andb_false_r.
Qed.

(** On the text of a base-10 integer [parseInt] gives that integer. *)
Lemma parseInt_base10 s i :
  base10_integer s = Some i -> parseInt s = Some i.
Proof.
  unfold base10_integer, parseInt. destruct s as [|a s]; [done|].
  destruct (Ascii.eqb_spec a "-") as [->|Hminus].
  - destruct s as [|b s]; [done|]. intros H.
    destruct (decimal_value (String b s) 0) as [v|] eqn:Hv; [|done].
    simpl in H. simplify_eq.
    change (skip_white_space (String "-" (String b s)))
      with (String "-" (String b s)).
    change (strip_sign (String "-" (String b s))) with (-1, String b s).
    cbv beta iota zeta.
    rewrite (strip_prefix_decimal _ _ _ Hv).
    by rewrite (parse_digits_decimal_start _ v).
  - intros Hv.
    assert (Ha : is_decimal_digit a = true).
    { simpl in Hv. by destruct (is_decimal_digit a). }
    cbn [skip_white_space]. rewrite (decimal_digit_not_white _ Ha).
    unfold strip_sign.
    rewrite (decimal_digit_not a "-"), (decimal_digit_not a "+") by done.
    cbv beta iota zeta.
    rewrite (strip_prefix_decimal _ _ _ Hv).
    rewrite (parse_digits_decimal_start _ i) by done.
    simpl. f_equal. lia.
Qed.

(** C4, as the handler has it. With [n] the number of records, a
    deletion is answered 200 exactly when [parseInt] of the index
    segment is an integer [i] with [0 <= i < n]; otherwise it is
    answered 404 and the dataset is unchanged.  [parseInt] skips leading
    white space, reads a sign, reads hexadecimal after [0x], and stops at
    the first character that is not a digit; on a segment that is a
    base-10 integer it gives that integer. *)
Theorem delete_succeeds_iff_parseInt_in_bounds JSON_parse req fs d :
  method req = "DELETE" -> startsWith (url req) "/api/records/" = true ->
  current (file fs) = Some d ->
  let n := Z.of_nat (List.length (records d)) in
  let out := requestListener JSON_parse req fs in
  (status out.1 = 200
   <-> exists i, parseInt (index_segment req) = Some i /\ 0 <= i < n)
  /\ (status out.1 <> 200 ->
      out.1 = sendResponse 404 (MessageBody index_message)
      /\ current (file out.2) = Some d
      /\ calls out.2 = (calls fs ++ load_calls (file fs))%list)
  /\ (forall i, base10_integer (index_segment req) = Some i ->
      (status out.1 = 200 <-> 0 <= i < n)).
Proof.
  intros Hm Hu Hcur. cbv zeta.
  rewrite (delete_record_result _ _ _ d) by done.
  set (n := Z.of_nat (List.length (records d))).
  assert (Hparse : forall i, base10_integer (index_segment req) = Some i ->
                             parseInt (index_segment req) = Some i)
    by apply parseInt_base10.
  destruct (parseInt (index_segment req)) as [index|]; simpl.
  - destruct (index <? 0) eqn:Hneg; simpl;
      [|destruct (index >=? n) eqn:Hge; simpl];
      rewrite ?current_after_load; (split; [|split]); try done.
    + split; [done|]. intros (i & ? & ?). simplify_eq. lia.
    + intros i Hi. apply Hparse in Hi. simplify_eq. split; [done|lia].
    + split; [done|]. intros (i & ? & ?). simplify_eq. lia.
    + intros i Hi. apply Hparse in Hi. simplify_eq. split; [done|lia].
    + split; [|done]. intros _. exists index. split; [done|lia].
    + intros i Hi. apply Hparse in Hi. simplify_eq. split; [lia|done].
  - rewrite current_after_load. split; [|split]; try done.
    + split; [done|]. by intros (i & ? & ?).
    + intros i Hi. by apply Hparse in Hi.
Qed.

Lemma delete_succeeds_iff_parseInt_in_bounds_witness :
  let req := mkRequest "DELETE" "/api/records/1abc" [] None in
  let d := mkDataset [] [∅; ∅] in
  let out := requestListener parse_sample req (mkFs (Document d) []) in
  status out.1 = 200
  <-> exists i, parseInt (index_segment req) = Some i /\ 0 <= i < 2.
Proof.
  apply (delete_succeeds_iff_parseInt_in_bounds parse_sample
           (mkRequest "DELETE" "/api/records/1abc" [] None)
           (mkFs (Document (mkDataset [] [∅; ∅])) [])
           (mkDataset [] [∅; ∅]) eq_refl eq_refl eq_refl).
Defined.

(** C4 as the specification states it does not hold, whether "parses as
    a base-10 integer" is read strictly or as [parseInt(s, 10)]: with one
    record, the segment [0abc] is no base-10 integer and deletes record
    0; the segment [0x5] has the decimal prefix 0 and is refused, being
    hexadecimal 5. *)
Lemma delete_index_not_base10 :
  ~ (forall JSON_parse req fs d,
        method req = "DELETE" -> startsWith (url req) "/api/records/" = true ->
        current (file fs) = Some d ->
        (status (requestListener JSON_parse req fs).1 = 200
         <-> exists i, base10_integer (index_segment req) = Some i
                       /\ 0 <= i < Z.of_nat (List.length (records d))))
  /\ ~ (forall JSON_parse req fs d,
        method req = "DELETE" -> startsWith (url req) "/api/records/" = true ->
        current (file fs) = Some d ->
        (status (requestListener JSON_parse req fs).1 = 200
         <-> exists i, parseInt_radix10 (index_segment req) = Some i
                       /\ 0 <= i < Z.of_nat (List.length (records d)))).
Proof.
  split; intros H.
  - destruct (H parse_sample (mkRequest "DELETE" "/api/records/0abc" [] None)
                (mkFs (Document (mkDataset [] [∅])) []) (mkDataset [] [∅])
                eq_refl eq_refl eq_refl) as [Hto _].
    destruct (Hto eq_refl) as (i & Hi & _).
    discriminate Hi.
  - destruct (H parse_sample (mkRequest "DELETE" "/api/records/0x5" [] None)
                (mkFs (Document (mkDataset [] [∅])) []) (mkDataset [] [∅])
                eq_refl eq_refl eq_refl) as [_ Hfrom].
    assert (Hs : status (requestListener parse_sample
                   (mkRequest "DELETE" "/api/records/0x5" [] None)
                   (mkFs (Document (mkDataset [] [∅])) [])).1 = 200).
    { apply Hfrom. exists 0. split; [reflexivity|simpl; lia]. }
    discriminate Hs.
Qed.

(** A [0x] prefix makes the index hexadecimal: [0x1] is record 1, not
    the record 0 that its decimal digits would name. *)
Example delete_hexadecimal_index (r0 r1 : gmap string value) :
  parseInt "0x1" = Some 1
  /\ splice1 1 [r0; r1] = [r0].
Proof. done. Qed.

Lemma map_fixed_splice1 {A} (f : A -> A) (l : list A) (i : Z) :
  map f l = l -> map f (splice1 i l) = splice1 i l.
Proof.
  intros H. unfold splice1.
  rewrite map_app, <- firstn_map, <- skipn_map. by rewrite H.
Qed.

Lemma is_json_dataset_splice1 d i :
  is_json_dataset d ->
  is_json_dataset (mkDataset (columns d) (splice1 i (records d))).
Proof.
  unfold is_json_dataset, dataset_json. destruct d as [cols recs]; simpl.
  intros [= Hc Hr]. f_equal; [done|]. by apply map_fixed_splice1.
Qed.

Lemma splice1_length {A} (l : list A) (i : Z) :
  0 <= i < Z.of_nat (List.length l) ->
  List.length (splice1 i l) = (List.length l - 1)%nat.
Proof.
  intros Hi. unfold splice1.
  rewrite length_app, length_take, length_drop. lia.
Qed.

Lemma splice1_lookup_before {A} (l : list A) (i : Z) (j : nat) :
  0 <= i < Z.of_nat (List.length l) -> (j < Z.to_nat i)%nat ->
  splice1 i l !! j = l !! j.
Proof.
  intros Hi Hj. unfold splice1.
  rewrite lookup_app_l by (rewrite length_take; lia).
  by apply lookup_take_lt.
Qed.

Lemma splice1_lookup_after {A} (l : list A) (i : Z) (j : nat) :
  0 <= i < Z.of_nat (List.length l) -> (Z.to_nat i <= j)%nat ->
  splice1 i l !! j = l !! S j.
Proof.
  intros Hi Hj. unfold splice1.
  rewrite lookup_app_r by (rewrite length_take; lia).
  rewrite length_take, lookup_drop. f_equal. lia.
Qed.

(** A deletion with an index in range, on a store that holds [d]. *)
Lemma delete_record_success JSON_parse req fs d i :
  method req = "DELETE" -> startsWith (url req) "/api/records/" = true ->
  current (file fs) = Some d -> is_json_dataset d ->
  parseInt (index_segment req) = Some i ->
  0 <= i < Z.of_nat (List.length (records d)) ->
  let d' := mkDataset (columns d) (splice1 i (records d)) in
  requestListener JSON_parse req fs
  = (mkResponse 200 (("Content-Type", "application/json") :: cors_headers)
       (Some (DataBody d')),
     mkFs (Document d')
          ((calls fs ++ load_calls (file fs)) ++ [WriteFile d'])).
Proof.
  intros Hm Hu Hcur Hjson Hi Hrange. cbv zeta.
  rewrite (delete_record_result _ _ _ d) by done. rewrite Hi. cbv zeta.
  replace (i <? 0) with false by lia.
  replace (i >=? Z.of_nat (List.length (records d))) with false by lia.
  simpl. unfold sendResponse, stringify_payload.
  by rewrite (is_json_dataset_splice1 d i Hjson).
Qed.

(** C8. A successful deletion at position [i] removes exactly the record
    at [i]: the records before it keep their positions, every later one
    moves down by one, and the answer is 200 with the dataset that is
    stored.  Deleting index 0 from [[r0, r1, r2]] leaves [[r1, r2]], and
    deleting index 0 again removes [r1]. *)
Theorem delete_shifts_later_records JSON_parse :
  (forall req fs d i,
      method req = "DELETE" -> startsWith (url req) "/api/records/" = true ->
      current (file fs) = Some d -> is_json_dataset d ->
      parseInt (index_segment req) = Some i ->
      0 <= i < Z.of_nat (List.length (records d)) ->
      let d' := mkDataset (columns d) (splice1 i (records d)) in
      let out := requestListener JSON_parse req fs in
      status out.1 = 200
      /\ body out.1 = Some (DataBody d')
      /\ file out.2 = Document d'
      /\ records d'
         = (take (Z.to_nat i) (records d) ++ drop (S (Z.to_nat i)) (records d))%list
      /\ List.length (records d') = (List.length (records d) - 1)%nat
      /\ (forall j, (j < Z.to_nat i)%nat -> records d' !! j = records d !! j)
      /\ (forall j, (Z.to_nat i <= j)%nat -> records d' !! j = records d !! S j))
  /\ (forall req fs cols r0 r1 r2,
      method req = "DELETE" -> url req = "/api/records/0" ->
      file fs = Document (mkDataset cols [r0; r1; r2]) ->
      is_json_dataset (mkDataset cols [r0; r1; r2]) ->
      let out1 := requestListener JSON_parse req fs in
      let out2 := requestListener JSON_parse req out1.2 in
      file out1.2 = Document (mkDataset cols [r1; r2])
      /\ file out2.2 = Document (mkDataset cols [r2])).
Proof.
  split.
  - intros req fs d i Hm Hu Hcur Hjson Hi Hrange. cbv zeta.
    rewrite (delete_record_success _ _ _ d i) by done. simpl.
    repeat split; try done.
    + by apply splice1_length.
    + intros j Hj. by apply splice1_lookup_before.
    + intros j Hj. by apply splice1_lookup_after.
  - intros req fs cols r0 r1 r2 Hm Hu Hfile Hjson. cbv zeta.
    assert (Hi : parseInt (index_segment req) = Some 0)
      by (unfold index_segment; by rewrite Hu).
    assert (Hs : startsWith (url req) "/api/records/" = true) by by rewrite Hu.
    rewrite (delete_record_success _ _ _ (mkDataset cols [r0; r1; r2]) 0);
      [|done|done|by rewrite Hfile|done|done|simpl; lia].
    simpl. split; [done|].
    pose proof (is_json_dataset_splice1 _ 0 Hjson) as Hjson'.
    rewrite (delete_record_success _ _ _ (mkDataset cols [r1; r2]) 0);
      [done|done|done|done|done|done|simpl; lia].
Qed.

Lemma delete_shifts_later_records_witness :
  let r0 : gmap string value := <["a" := VStr "zero"]> ∅ in
  let r1 : gmap string value := <["a" := VStr "one"]> ∅ in
  let r2 : gmap string value := <["a" := VStr "two"]> ∅ in
  let req := mkRequest "DELETE" "/api/records/0" [] None in
  let fs := mkFs (Document (mkDataset [VStr "a"] [r0; r1; r2])) [] in
  let out1 := requestListener parse_sample req fs in
  let out2 := requestListener parse_sample req out1.2 in
  file out1.2 = Document (mkDataset [VStr "a"] [r1; r2])
  /\ file out2.2 = Document (mkDataset [VStr "a"] [r2]).
Proof.
  apply (proj2 (delete_shifts_later_records parse_sample)
           (mkRequest "DELETE" "/api/records/0" [] None)
           (mkFs (Document (mkDataset [VStr "a"]
              [<["a" := VStr "zero"]> ∅; <["a" := VStr "one"]> ∅;
               <["a" := VStr "two"]> ∅])) [])
           [VStr "a"]
           (<["a" := VStr "zero"]> ∅) (<["a" := VStr "one"]> ∅)
           (<["a" := VStr "two"]> ∅)); reflexivity.
Defined.

(** ** POST /api/columns *)

(** X8. POST /api/columns with a decoded body other than [null] that has
    no array under [columns] is refused with 400, and the store is not
    accessed. *)
Lemma post_columns_refused JSON_parse req fs body :
  method req = "POST" -> url req = "/api/columns" ->
  decodes JSON_parse req body ->
  body <> VNull ->
  is_array (columns_field body) = false ->
  requestListener JSON_parse req fs
  = (sendResponse 400 (MessageBody columns_message), fs).
Proof.
  intros Hm Hu Hd Hnull Harr.
  rewrite requestListener_route by (rewrite Hm; discriminate).
  rewrite route_columns by done.
  unfold post_columns, bind. rewrite Hd.
  destruct body as [| | | | |o| |]; try done.
  simpl in *. by destruct (o !! "columns") as [[]|].
Qed.

Lemma forallb_has_key cols :
  Forall (fun col => has_key col = true) cols -> forallb has_key cols = true.
Proof. induction 1 as [|c l Hc _ IH]; simpl; [done|]. by rewrite Hc, IH. Qed.

(** A body with an array under [columns], on a store that holds [d],
    when every removed column has a property key. *)
Lemma post_columns_accepted JSON_parse req fs o newColumns d :
  method req = "POST" -> url req = "/api/columns" ->
  decodes JSON_parse req (VObj o) ->
  o !! "columns" = Some (VArr newColumns) ->
  current (file fs) = Some d ->
  Forall (fun col => has_key col = true)
         (removed_columns (columns d) newColumns) ->
  let removedCols := removed_columns (columns d) newColumns in
  let data := mkDataset newColumns (map (prune_record removedCols) (records d)) in
  requestListener JSON_parse req fs
  = (sendResponse 200 (DataBody data),
     mkFs (Document (dataset_json data))
          ((calls fs ++ load_calls (file fs)) ++ [WriteFile (dataset_json data)])).
Proof.
  intros Hm Hu Hd Hcols Hcur Hkeys. cbv zeta.
  rewrite requestListener_route by (rewrite Hm; discriminate).
  rewrite route_columns by done.
  unfold post_columns, bind. rewrite Hd. simpl. rewrite Hcols.
  rewrite (readData_current _ _ Hcur), prune_records_result.
  rewrite (forallb_has_key _ Hkeys). by destruct (records d).
Qed.

(** X23. POST /api/columns with an array under [columns], on a store that
    holds at least one record and where a removed column has no property
    key (an object with an own [toString] property, or an array that
    holds one): [delete newRecord[col]] of line 126 throws a TypeError,
    the answer is 500 and nothing is written. *)
Lemma post_columns_key_error JSON_parse req fs o newColumns d :
  method req = "POST" -> url req = "/api/columns" ->
  decodes JSON_parse req (VObj o) ->
  o !! "columns" = Some (VArr newColumns) ->
  current (file fs) = Some d ->
  records d <> [] ->
  forallb has_key (removed_columns (columns d) newColumns) = false ->
  requestListener JSON_parse req fs
  = (sendResponse 500
       (ErrorBody "Internal Server Error"
          "Cannot convert object to primitive value"),
     mkFs (after_load (file fs)) (calls fs ++ load_calls (file fs))).
Proof.
  intros Hm Hu Hd Hcols Hcur Hrecs Hkeys.
  rewrite requestListener_route by (rewrite Hm; discriminate).
  rewrite route_columns by done.
  unfold post_columns, bind. rewrite Hd. simpl. rewrite Hcols.
  rewrite (readData_current _ _ Hcur), prune_records_result, Hkeys.
  by destruct (records d).
Qed.

Lemma post_columns_key_error_witness :
  let req := mkRequest "POST" "/api/columns"
               ["{" ++ dq ++ "columns" ++ dq ++ ":[" ++ dq ++ "a" ++ dq ++ "]}"]
               None in
  let d := mkDataset [VObj (<["toString" := VStr "x"]> ∅)] [∅] in
  requestListener parse_sample req (mkFs (Document d) [])
  = (sendResponse 500
       (ErrorBody "Internal Server Error"
          "Cannot convert object to primitive value"),
     mkFs (Document d) [ReadFile]).
Proof.
  apply (post_columns_key_error parse_sample
           (mkRequest "POST" "/api/columns"
              ["{" ++ dq ++ "columns" ++ dq ++ ":[" ++ dq ++ "a" ++ dq ++ "]}"]
              None)
           (mkFs (Document (mkDataset [VObj (<["toString" := VStr "x"]> ∅)] [∅]))
                 [])
           (<["columns" := VArr [VStr "a"]]> ∅) [VStr "a"]
           (mkDataset [VObj (<["toString" := VStr "x"]> ∅)] [∅]));
    solve [reflexivity | intros fs; reflexivity | discriminate].
Defined.

(** [removed_columns] keeps, in their order, the old columns that the
    new array does not include. *)
Lemma removed_columns_spec oldColumns newColumns col :
  col ∈ removed_columns oldColumns newColumns
  <-> col ∈ oldColumns /\ includes newColumns col = false.
Proof.
  unfold removed_columns. rewrite !list_elem_of_In, filter_In.
  by rewrite negb_true_iff.
Qed.

Lemma removed_columns_sublist oldColumns newColumns :
  sublist (removed_columns oldColumns newColumns) oldColumns.
Proof.
  unfold removed_columns.
  induction oldColumns as [|c l IH]; simpl; [done|].
  destruct (negb (includes newColumns c)); by constructor.
Qed.

(** [prune_record] deletes the keys of the removed columns and no other
    key. *)
Lemma prune_record_lookup removedCols (record : gmap string value) key :
  prune_record removedCols record !! key
  = if bool_decide (key ∈ to_string <$> removedCols) then None
    else record !! key.
Proof.
  unfold prune_record. revert record.
  induction removedCols as [|c l IH]; intros record; simpl; [done|].
  rewrite IH. change (list_fmap value string to_string l) with (to_string <$> l).
  destruct (decide (key = to_string c)) as [->|Hne].
  - rewrite lookup_delete_eq.
    rewrite (bool_decide_eq_true_2 (_ ∈ _ :: _)) by apply list_elem_of_here.
    by case_bool_decide.
  - rewrite lookup_delete_ne by done.
    by rewrite (bool_decide_ext (key ∈ to_string c :: (to_string <$> l))
                                (key ∈ to_string <$> l))
      by (rewrite elem_of_cons; tauto).
Qed.

Lemma removed_columns_Forall (P : value -> Prop) oldColumns newColumns :
  Forall P oldColumns -> Forall P (removed_columns oldColumns newColumns).
Proof.
  unfold removed_columns. induction 1 as [|c l Hc _ IH]; simpl; [done|].
  destruct (negb (includes newColumns c)); [by constructor|done].
Qed.

(** X9. POST /api/columns with an array under [columns], on a store that
    holds [d] and whose columns all have a property key (every string,
    number, boolean and [null] has one): the removed columns are the old
    ones the new array does not include, in their old order; every
    record loses exactly the keys of the removed columns; the columns
    are replaced, the document is written and the answer is 200 with the
    dataset as written. *)
Lemma post_columns_replaces JSON_parse req fs o newColumns d :
  method req = "POST" -> url req = "/api/columns" ->
  decodes JSON_parse req (VObj o) ->
  o !! "columns" = Some (VArr newColumns) ->
  current (file fs) = Some d ->
  Forall (fun col => has_key col = true) (columns d) ->
  let removedCols := removed_columns (columns d) newColumns in
  let data := mkDataset newColumns (map (prune_record removedCols) (records d)) in
  (forall col, col ∈ removedCols
               <-> col ∈ columns d /\ includes newColumns col = false)
  /\ sublist removedCols (columns d)
  /\ (forall record key,
        prune_record removedCols record !! key
        = if bool_decide (key ∈ to_string <$> removedCols) then None
          else record !! key)
  /\ requestListener JSON_parse req fs
     = (sendResponse 200 (DataBody data),
        mkFs (Document (dataset_json data))
             ((calls fs ++ load_calls (file fs))
              ++ [WriteFile (dataset_json data)])).
Proof.
  intros Hm Hu Hd Hcols Hcur Hkeys. cbv zeta.
  split; [intros col; apply removed_columns_spec|].
  split; [apply removed_columns_sublist|].
  split; [intros record key; apply prune_record_lookup|].
  apply (post_columns_accepted _ _ _ o); try done.
  by apply removed_columns_Forall.
Qed.

(** C7 at the body [null]. A POST /api/columns request whose body
    decodes to [null] is not answered 400: destructuring [null] throws,
    and the answer is 500.  The store is not accessed. *)
Theorem null_columns_body_500 JSON_parse req fs :
  method req = "POST" -> url req = "/api/columns" ->
  decodes JSON_parse req VNull ->
  requestListener JSON_parse req fs
  = (sendResponse 500
       (ErrorBody "Internal Server Error"
          "Cannot destructure property 'columns' of '(intermediate value)' as it is null."),
     fs).
Proof.
  intros Hm Hu Hd.
  rewrite requestListener_route by (rewrite Hm; discriminate).
  rewrite route_columns by done.
  unfold post_columns, bind. by rewrite Hd.
Qed.

Lemma null_columns_body_500_witness :
  let req := mkRequest "POST" "/api/columns" ["null"] None in
  decodes parse_sample req VNull
  /\ status (requestListener parse_sample req (mkFs Absent [])).1 = 500
  /\ (requestListener parse_sample req (mkFs Absent [])).2 = mkFs Absent [].
Proof.
  split; [intros fs; reflexivity|].
  rewrite (null_columns_body_500 parse_sample
             (mkRequest "POST" "/api/columns" ["null"] None) (mkFs Absent [])
             eq_refl eq_refl (fun fs => eq_refl)).
  split; reflexivity.
Defined.

(** Columns [["a","b"]], one record [{"a":"1","b":"2"}]; posting
    [{"columns":["a"]}] leaves the record [{"a":"1"}]. *)
Example post_columns_prunes_removed_keys :
  let req := mkRequest "POST" "/api/columns"
               ["{" ++ dq ++ "columns" ++ dq ++ ":[" ++ dq ++ "a" ++ dq ++ "]}"]
               None in
  let d := mkDataset [VStr "a"; VStr "b"]
             [<["a" := VStr "1"]> (<["b" := VStr "2"]> ∅)] in
  (requestListener parse_sample req (mkFs (Document d) [])).1
  = mkResponse 200 (("Content-Type", "application/json") :: cors_headers)
      (Some (DataBody (mkDataset [VStr "a"] [<["a" := VStr "1"]> ∅]))).
Proof. vm_compute. reflexivity. Qed.

(** ** POST /api/records: the record that is appended *)

Lemma get_property_plain (o : gmap string value) key :
  is_prototype_member key = false -> get_property o key = o !! key.
Proof.
  unfold is_prototype_member, get_property. intros [H1 H2]%orb_false_elim.
  rewrite H1, H2. by destruct (o !! key).
Qed.

Lemma set_property_plain obj key v :
  String.eqb key "__proto__" = false ->
  set_property obj key v = mkJsObject (<[key := v]> (own obj)) (proto obj).
Proof. unfold set_property. by intros ->. Qed.

Lemma fill_plain_lookup (o : gmap string value) cols obj key :
  Forall (fun col => is_prototype_member (to_string col) = false) cols ->
  own (foldl (fill_step o) obj cols) !! key
  = if bool_decide (key ∈ to_string <$> cols)
    then Some (or_empty (o !! key))
    else own obj !! key.
Proof.
  intros Hcols. revert obj.
  induction Hcols as [|c l Hc _ IH]; intros obj; simpl; [done|].
  rewrite IH. change (list_fmap value string to_string l) with (to_string <$> l).
  unfold fill_step. rewrite (get_property_plain _ _ Hc).
  rewrite set_property_plain
    by (by apply orb_false_elim in Hc as [? _]).
  simpl. destruct (decide (key = to_string c)) as [->|Hne].
  - rewrite lookup_insert_eq.
    rewrite (bool_decide_eq_true_2 (_ ∈ _ :: _)) by apply list_elem_of_here.
    by case_bool_decide.
  - rewrite lookup_insert_ne by done.
    by rewrite (bool_decide_ext (key ∈ to_string c :: (to_string <$> l))
                                (key ∈ to_string <$> l))
      by (rewrite elem_of_cons; tauto).
Qed.

(** When no column is named like a member of [Object.prototype], the
    record built has exactly the columns as keys; under each is the
    field of the body with that name when it is truthy, and [''] when
    it is falsy or missing.  Fields of the body that are not columns are
    ignored. *)
Lemma fill_record_plain (o : gmap string value) cols :
  Forall (fun col => is_prototype_member (to_string col) = false) cols ->
  (forall key,
      own (fill_record o cols) !! key
      = if bool_decide (key ∈ to_string <$> cols)
        then Some (or_empty (o !! key))
        else None)
  /\ dom (own (fill_record o cols)) = list_to_set (to_string <$> cols).
Proof.
  intros Hcols.
  assert (Hlookup : forall key,
             own (fill_record o cols) !! key
             = if bool_decide (key ∈ to_string <$> cols)
               then Some (or_empty (o !! key)) else None).
  { intros key. unfold fill_record. rewrite (fill_plain_lookup _ _ _ _ Hcols).
    by case_bool_decide. }
  split; [done|].
  apply set_eq. intros key.
  rewrite elem_of_dom, Hlookup, elem_of_list_to_set.
  case_bool_decide; split; try done; by intros [? ?].
Qed.

(** [x || ''] is the field when it is truthy and [''] otherwise. *)
Lemma or_empty_spec (x : option value) :
  or_empty x = match x with
               | Some v => if truthy v then v else VStr EmptyString
               | None => VStr EmptyString
               end.
Proof. by destruct x. Qed.

(** POST /api/records with a body that decodes to an object, on a store
    that holds [d] and whose columns all have a property key: one record
    is appended, and the answer is 201 with the dataset as written. *)
Lemma post_records_object JSON_parse req fs o d :
  method req = "POST" -> url req = "/api/records" ->
  decodes JSON_parse req (VObj o) ->
  current (file fs) = Some d ->
  Forall (fun col => has_key col = true) (columns d) ->
  let data := mkDataset (columns d)
                (records d ++ [own (fill_record o (columns d))]) in
  requestListener JSON_parse req fs
  = (mkResponse 201 (("Content-Type", "application/json") :: cors_headers)
       (Some (DataBody (dataset_json data))),
     mkFs (Document (dataset_json data))
          ((calls fs ++ load_calls (file fs)) ++ [WriteFile (dataset_json data)])).
Proof.
  intros Hm Hu Hd Hcur Hkeys. cbv zeta.
  rewrite (post_records_accepted _ _ _ (VObj o) d) by done. cbv zeta.
  by rewrite build_record_object, (forallb_has_key _ Hkeys).
Qed.

(** X22. POST /api/records with an object body, on a store where a
    column has no property key (an object with an own [toString]
    property, or an array that holds one): the loop of lines 149-151
    throws a TypeError, the answer is 500 and nothing is written. *)
Lemma post_records_key_error JSON_parse req fs o d :
  method req = "POST" -> url req = "/api/records" ->
  decodes JSON_parse req (VObj o) ->
  current (file fs) = Some d ->
  forallb has_key (columns d) = false ->
  requestListener JSON_parse req fs
  = (sendResponse 500
       (ErrorBody "Internal Server Error"
          "Cannot convert object to primitive value"),
     mkFs (after_load (file fs)) (calls fs ++ load_calls (file fs))).
Proof.
  intros Hm Hu Hd Hcur Hkeys.
  rewrite (post_records_accepted _ _ _ (VObj o) d) by done. cbv zeta.
  by rewrite build_record_object, Hkeys.
Qed.

Lemma post_records_key_error_witness :
  let req := mkRequest "POST" "/api/records" ["{}"] None in
  let d := mkDataset [VObj (<["toString" := VStr "x"]> ∅)] [] in
  requestListener parse_sample req (mkFs (Document d) [])
  = (sendResponse 500
       (ErrorBody "Internal Server Error"
          "Cannot convert object to primitive value"),
     mkFs (Document d) [ReadFile]).
Proof.
  apply (post_records_key_error parse_sample
           (mkRequest "POST" "/api/records" ["{}"] None)
           (mkFs (Document (mkDataset [VObj (<["toString" := VStr "x"]> ∅)] []))
                 [])
           ∅ (mkDataset [VObj (<["toString" := VStr "x"]> ∅)] []));
    solve [reflexivity | intros fs; reflexivity].
Defined.

(** Such a column is set through the interface itself: on a fresh store,
    POST /api/columns with [{"columns":[{"toString":"x"}]}] is answered
    200, and every POST /api/records with an object body is then
    answered 500. *)
Example keyless_column_reached :
  let req1 := mkRequest "POST" "/api/columns"
    ["{" ++ dq ++ "columns" ++ dq ++ ":[{" ++ dq ++ "toString" ++ dq
         ++ ":" ++ dq ++ "x" ++ dq ++ "}]}"] None in
  let req2 := mkRequest "POST" "/api/records" ["{}"] None in
  let out1 := requestListener parse_sample req1 (mkFs Absent []) in
  let out2 := requestListener parse_sample req2 out1.2 in
  status out1.1 = 200
  /\ file out1.2
     = Document (mkDataset [VObj (<["toString" := VStr "x"]> ∅)] [])
  /\ status out2.1 = 500
  /\ file out2.2 = file out1.2.
Proof. vm_compute. done. Qed.

(** X7. POST /api/records when every column has a property key (every
    string, number, boolean and [null] has one) and none is named like a
    member of [Object.prototype]: the record appended has the columns as
    its key set, under each column the field of the body when it is
    truthy and [''] otherwise, and the answer is 201 with the dataset as
    written. *)
Lemma post_records_plain_columns JSON_parse req fs o d :
  method req = "POST" -> url req = "/api/records" ->
  decodes JSON_parse req (VObj o) ->
  current (file fs) = Some d ->
  Forall (fun col => has_key col = true) (columns d) ->
  Forall (fun col => is_prototype_member (to_string col) = false) (columns d) ->
  let validRecord := own (fill_record o (columns d)) in
  let data := mkDataset (columns d) (records d ++ [validRecord]) in
  dom validRecord = list_to_set (to_string <$> columns d)
  /\ (forall col, col ∈ columns d ->
       validRecord !! to_string col
       = Some (match o !! to_string col with
               | Some v => if truthy v then v else VStr EmptyString
               | None => VStr EmptyString
               end))
  /\ requestListener JSON_parse req fs
     = (mkResponse 201 (("Content-Type", "application/json") :: cors_headers)
          (Some (DataBody (dataset_json data))),
        mkFs (Document (dataset_json data))
             ((calls fs ++ load_calls (file fs))
              ++ [WriteFile (dataset_json data)])).
Proof.
  intros Hm Hu Hd Hcur Hkeys Hcols. cbv zeta.
  destruct (fill_record_plain o (columns d) Hcols) as [Hlookup Hdom].
  split; [done|]. split; [|by apply post_records_object].
  intros col Hcol. rewrite Hlookup, <- or_empty_spec.
  rewrite bool_decide_eq_true_2; [done|].
  by apply list_elem_of_fmap_2.
Qed.

(** Columns [["a","b"]]; posting [{"a":"x"}] appends [{"a":"x","b":""}]. *)
Example post_records_fills_missing_fields :
  let req := mkRequest "POST" "/api/records"
               ["{" ++ dq ++ "a" ++ dq ++ ":" ++ dq ++ "x" ++ dq ++ "}"] None in
  let d := mkDataset [VStr "a"; VStr "b"] [] in
  (requestListener parse_sample req (mkFs (Document d) [])).1
  = mkResponse 201 (("Content-Type", "application/json") :: cors_headers)
      (Some (DataBody (mkDataset [VStr "a"; VStr "b"]
         [<["a" := VStr "x"]> (<["b" := VStr EmptyString]> ∅)]))).
Proof. vm_compute. reflexivity. Qed.

(** C6 at a column named like a member of [Object.prototype]. With the
    columns [["constructor"]] and an empty body (which decodes to [{}]),
    [newRecord["constructor"]] is the inherited function [Object], which
    is truthy: the record gets that function under ["constructor"], and
    [JSON.stringify] leaves a function-valued property out.  The record
    appended to the document and sent in the answer is [{}]: its key set
    is not the columns, and the column has no [''] under it. *)
Theorem inherited_column_name_not_stored JSON_parse :
  let req := mkRequest "POST" "/api/records" [] None in
  let d := mkDataset [VStr "constructor"] [] in
  let d' := mkDataset [VStr "constructor"] [∅] in
  decodes JSON_parse req (VObj ∅)
  /\ own (fill_record ∅ (columns d))
     = <["constructor" := VFun "constructor"]> ∅
  /\ requestListener JSON_parse req (mkFs (Document d) [])
     = (mkResponse 201 (("Content-Type", "application/json") :: cors_headers)
          (Some (DataBody d')),
        mkFs (Document d') [ReadFile; WriteFile d']).
Proof.
  split; [intros fs; reflexivity|]. split; [reflexivity|].
  vm_compute. reflexivity.
Qed.

(** The columns [["constructor"]] are set through the interface itself:
    on a fresh store, POST /api/columns and then POST /api/records with
    an empty body leave the record [{}]. *)
Example inherited_column_name_reached :
  let req1 := mkRequest "POST" "/api/columns"
    ["{" ++ dq ++ "columns" ++ dq ++ ":[" ++ dq ++ "constructor" ++ dq ++ "]}"]
    None in
  let req2 := mkRequest "POST" "/api/records" [] None in
  let out1 := requestListener parse_sample req1 (mkFs Absent []) in
  let out2 := requestListener parse_sample req2 out1.2 in
  status out1.1 = 200
  /\ file out1.2 = Document (mkDataset [VStr "constructor"] [])
  /\ status out2.1 = 201
  /\ file out2.2 = Document (mkDataset [VStr "constructor"] [∅]).
Proof. vm_compute. done. Qed.

(** The same with the column ["__proto__"]: the assignment of line 150
    runs the setter of [Object.prototype] and makes no property. *)
Example proto_column_name_not_stored :
  own (fill_record ∅ [VStr "__proto__"; VStr "a"])
  = <["a" := VStr EmptyString]> ∅.
Proof. vm_compute. reflexivity. Qed.

(** ** Values that are strings *)

Lemma json_of_string v : is_string v -> json_of v = v.
Proof. by destruct v. Qed.

Lemma omap_json_strings (r : gmap string value) :
  map_Forall (fun _ v => is_string v \/ is_function v) r ->
  map_Forall (fun _ v => is_string v) (omap json_image r).
Proof.
  intros Hr key v. rewrite lookup_omap.
  destruct (r !! key) as [x|] eqn:Hx; [|done]. simpl.
  destruct (Hr _ _ Hx) as [Hs|Hf]; destruct x; try done.
  by intros [= <-].
Qed.

Lemma string_shaped_json d : string_shaped d -> string_shaped (dataset_json d).
Proof.
  intros [Hc Hr]. split; simpl; apply List.Forall_map.
  - eapply Forall_impl; [exact Hc|]. intros v Hv. by rewrite json_of_string.
  - eapply Forall_impl; [exact Hr|]. intros r Hrec.
    apply omap_json_strings. intros k v Hv. left. by apply (Hrec k).
Qed.

(** What the loop reads from a body whose fields are strings or falsy:
    a string, or an inherited function, or, under ["__proto__"] only,
    [Object.prototype]. *)
Lemma or_empty_get_strings (o : gmap string value) key :
  map_Forall (fun _ v => is_string v \/ truthy v = false) o ->
  let v := or_empty (get_property o key) in
  is_string v
  \/ (is_function v /\ String.eqb key "__proto__" = false)
  \/ (v = VProto /\ String.eqb key "__proto__" = true).
Proof.
  intros Ho. unfold get_property. simpl.
  destruct (o !! key) as [x|] eqn:Hx; simpl.
  - left. unfold js_or. destruct (Ho _ _ Hx) as [Hs|Hf].
    + by destruct (truthy x).
    + by rewrite Hf.
  - destruct (String.eqb key "__proto__"); [by right; right|].
    destruct (is_prototype_function key); [by right; left|by left].
Qed.

Lemma fill_step_strings (o : gmap string value) obj col :
  map_Forall (fun _ v => is_string v \/ truthy v = false) o ->
  strings_so_far obj -> strings_so_far (fill_step o obj col).
Proof.
  intros Ho (Hp & Hown & Hvals). unfold fill_step, set_property.
  pose proof (or_empty_get_strings o (to_string col) Ho) as Hv.
  simpl in Hv. set (v := or_empty _) in *.
  destruct (String.eqb_spec (to_string col) "__proto__") as [Hk|Hk].
  - rewrite Hk, Hown, Hp. simpl.
    destruct Hv as [Hs|[[_ ?]|[-> _]]]; [|done|done].
    by destruct v.
  - repeat split; simpl; [done|by rewrite lookup_insert_ne|].
    apply map_Forall_insert_2; [|done].
    destruct Hv as [Hs|[[Hf _]|[_ ?]]]; [by left|by right|done].
Qed.

(** With a body whose fields are strings or falsy, every property the
    loop sets is a string or an inherited function, and the prototype is
    left alone. *)
Lemma fill_strings (o : gmap string value) cols obj :
  map_Forall (fun _ v => is_string v \/ truthy v = false) o ->
  strings_so_far obj -> strings_so_far (foldl (fill_step o) obj cols).
Proof.
  intros Ho. revert obj.
  induction cols as [|c l IH]; intros obj Hobj; simpl; [done|].
  by apply IH, fill_step_strings.
Qed.

Lemma map_json_of_strings cols :
  Forall is_string cols -> map json_of cols = cols.
Proof.
  induction 1 as [|c l Hc _ IH]; simpl; [done|].
  by rewrite (json_of_string _ Hc), IH.
Qed.

(** C5, as the handler has it. On a store that holds a dataset whose
    columns are strings, POST /api/records with an object body whose
    fields are all strings or falsy is answered 201 with the dataset as
    written: the columns as they were, and the records already there
    followed by one new record.  Every value of the new record is a
    string; and when the records already there have string values only,
    the document written has string columns and string values only. *)
Theorem appended_record_strings JSON_parse req fs d o :
  method req = "POST" -> url req = "/api/records" ->
  decodes JSON_parse req (VObj o) ->
  current (file fs) = Some d ->
  Forall is_string (columns d) ->
  map_Forall (fun _ v => is_string v \/ truthy v = false) o ->
  let r := omap json_image (own (fill_record o (columns d))) in
  let d' := mkDataset (columns d)
              (map (omap json_image) (records d) ++ [r]) in
  let out := requestListener JSON_parse req fs in
  status out.1 = 201
  /\ body out.1 = Some (DataBody d')
  /\ file out.2 = Document d'
  /\ map_Forall (fun _ v => is_string v) r
  /\ (Forall (map_Forall (fun _ v => is_string v)) (records d) ->
      string_shaped d').
Proof.
  intros Hm Hu Hd Hcur Hcols Ho. cbv zeta.
  rewrite (post_records_object _ _ _ o d); try done;
    [|by eapply Forall_impl; [exact Hcols|apply has_key_string]].
  unfold dataset_json. simpl.
  rewrite map_app, (map_json_of_strings _ Hcols). simpl.
  assert (Hr : map_Forall (fun _ v => is_string v)
                 (omap json_image (own (fill_record o (columns d))))).
  { apply omap_json_strings. unfold fill_record.
    apply fill_strings; [done|]. by repeat split. }
  split; [done|]. split; [done|]. split; [done|]. split; [done|].
  intros Hrecs. split; simpl; [done|].
  apply Forall_app. split; [|by apply Forall_singleton].
  apply List.Forall_map. eapply Forall_impl; [exact Hrecs|].
  intros r Hrec. apply omap_json_strings. intros k v Hv. left.
  by apply (Hrec k).
Qed.

Lemma appended_record_strings_witness :
  let req := mkRequest "POST" "/api/records"
               ["{" ++ dq ++ "a" ++ dq ++ ":" ++ dq ++ "x" ++ dq ++ "}"] None in
  let d := mkDataset [VStr "a"; VStr "b"] [] in
  let r : gmap string value :=
    <["a" := VStr "x"]> (<["b" := VStr EmptyString]> ∅) in
  file (requestListener parse_sample req (mkFs (Document d) [])).2
  = Document (mkDataset [VStr "a"; VStr "b"] [r])
  /\ map_Forall (fun _ v => is_string v) r.
Proof.
  destruct (appended_record_strings parse_sample
              (mkRequest "POST" "/api/records"
                 ["{" ++ dq ++ "a" ++ dq ++ ":" ++ dq ++ "x" ++ dq ++ "}"] None)
              (mkFs (Document (mkDataset [VStr "a"; VStr "b"] [])) [])
              (mkDataset [VStr "a"; VStr "b"] [])
              (<["a" := VStr "x"]> ∅)
              eq_refl eq_refl (fun fs => eq_refl) eq_refl)
    as (_ & _ & Hfile & Hr & _).
  - by repeat constructor.
  - apply map_Forall_insert_2; [by left|apply map_Forall_empty].
  - split; [exact Hfile|exact Hr].
Defined.

(** C5 as the specification states it does not hold: with the column
    ["a"], posting [{"a":5}] stores the number 5. *)
Lemma number_field_stored_as_number :
  ~ (forall JSON_parse req fs d o,
        method req = "POST" -> url req = "/api/records" ->
        decodes JSON_parse req (VObj o) ->
        current (file fs) = Some d ->
        forall d' r,
          file (requestListener JSON_parse req fs).2 = Document d' ->
          last (records d') = Some r ->
          map_Forall (fun _ v => is_string v) r).
Proof.
  intros H.
  pose proof (H parse_sample
                (mkRequest "POST" "/api/records"
                   ["{" ++ dq ++ "a" ++ dq ++ ":5}"] None)
                (mkFs (Document (mkDataset [VStr "a"] [])) [])
                (mkDataset [VStr "a"] [])
                (<["a" := VNum (Finite "5")]> ∅)
                eq_refl eq_refl (fun fs => eq_refl) eq_refl
                (mkDataset [VStr "a"] [<["a" := VNum (Finite "5")]> ∅])
                (<["a" := VNum (Finite "5")]> ∅)
                eq_refl eq_refl) as Hr.
  exact (Hr "a" (VNum (Finite "5")) eq_refl).
Qed.

(** ** The document is always a JSON image *)

(** Serialising twice is serialising once. *)
Lemma json_image_idempotent v v' :
  json_image v = Some v' -> json_image v' = Some v'.
Proof.
  remember (value_size v) as n eqn:Hn. revert v v' Hn.
  induction n as [n IH] using lt_wf_ind. intros v v' -> Hv.
  destruct v as [| b | [r| |] | s | l | m | f |]; simpl in Hv; simplify_eq;
    try done.
  - simpl. do 2 f_equal. rewrite map_map. apply map_ext_in.
    intros e He. apply list_elem_of_In in He.
    destruct (json_image e) as [e'|] eqn:E; simpl; [|done].
    by rewrite (IH _ (value_size_elem _ _ He) e e' eq_refl E).
  - simpl. do 2 f_equal. apply map_eq. intros k.
    rewrite !lookup_omap.
    destruct (m !! k) as [e|] eqn:Hk; simpl; [|done].
    destruct (json_image e) as [e'|] eqn:E; simpl; [|done].
    by apply (IH _ (value_size_field _ _ _ Hk) e e' eq_refl E).
Qed.

Lemma json_of_idempotent v : json_of (json_of v) = json_of v.
Proof.
  unfold json_of. destruct (json_image v) as [v'|] eqn:E; simpl; [|done].
  by rewrite (json_image_idempotent _ _ E).
Qed.

Lemma omap_json_idempotent (r : gmap string value) :
  omap json_image (omap json_image r) = omap json_image r.
Proof.
  apply map_eq. intros k. rewrite !lookup_omap.
  destruct (r !! k) as [e|]; simpl; [|done].
  destruct (json_image e) as [e'|] eqn:E; simpl; [|done].
  by apply json_image_idempotent in E.
Qed.

Lemma dataset_json_is_json data : is_json_dataset (dataset_json data).
Proof.
  unfold is_json_dataset, dataset_json. simpl. f_equal; rewrite map_map.
  - apply map_ext. intros v. apply json_of_idempotent.
  - apply map_ext. intros r. apply omap_json_idempotent.
Qed.

Lemma keeps_json_ret {A} (a : A) : keeps_json (ret a).
Proof. intros fs. by left. Qed.

Lemma keeps_json_throw {A} e : keeps_json (throw (A:=A) e).
Proof. intros fs. by left. Qed.

Lemma keeps_json_bind {A B} (m : M A) (k : A -> M B) :
  keeps_json m -> (forall a, keeps_json (k a)) -> keeps_json (bind m k).
Proof.
  intros Hm Hk fs. unfold bind. specialize (Hm fs).
  destruct (m fs) as [[a|e] fs1]; simpl in *; [|done].
  destruct (Hk a fs1) as [H|H]; [|by right]. by rewrite H.
Qed.

Lemma keeps_json_try_catch {A} (m : M A) (handler : Error -> M A) :
  keeps_json m -> (forall e, keeps_json (handler e)) ->
  keeps_json (try_catch m handler).
Proof.
  intros Hm Hh fs. unfold try_catch. specialize (Hm fs).
  destruct (m fs) as [[a|e] fs1]; simpl in *; [done|].
  destruct (Hh e fs1) as [H|H]; [|by right]. by rewrite H.
Qed.

Lemma keeps_json_readFile : keeps_json fs_readFile.
Proof. intros [f cs]. left. unfold fs_readFile. by destruct f. Qed.

Lemma keeps_json_writeFile data : keeps_json (fs_writeFile data).
Proof. intros fs. right. by exists data. Qed.

Lemma keeps_json_readData : keeps_json readData.
Proof.
  apply keeps_json_try_catch.
  - apply keeps_json_bind; [apply keeps_json_readFile|].
    intros [m|d]; [apply keeps_json_throw|apply keeps_json_ret].
  - intros e. destruct (has_code e "ENOENT"); [|apply keeps_json_throw].
    apply keeps_json_bind; [apply keeps_json_writeFile|].
    intros _. apply keeps_json_ret.
Qed.

Lemma keeps_json_parseBody JSON_parse req : keeps_json (parseBody JSON_parse req).
Proof.
  unfold parseBody. destruct (stream_error req); [apply keeps_json_throw|].
  destruct (negb _); [|apply keeps_json_ret].
  destruct (JSON_parse _); [apply keeps_json_ret|apply keeps_json_throw].
Qed.

Lemma keeps_json_pure {A} (m : M A) :
  (forall fs, (m fs).2 = fs) -> keeps_json m.
Proof. intros H fs. left. by rewrite H. Qed.

Lemma prune_records_store removedCols (recs : list (gmap string value)) fs :
  (map_records (delete_columns removedCols) recs fs).2 = fs.
Proof.
  rewrite prune_records_result.
  by destruct recs, (forallb has_key removedCols).
Qed.

Lemma keeps_json_build_record v cols : keeps_json (build_record v cols).
Proof. apply keeps_json_pure, build_record_store. Qed.

Lemma keeps_json_route JSON_parse req : keeps_json (route JSON_parse req).
Proof.
  unfold route.
  repeat match goal with
         | |- keeps_json (if ?b then _ else _) => destruct b
         end.
  - apply keeps_json_bind; [apply keeps_json_readData|].
    intros d. apply keeps_json_ret.
  - unfold post_columns.
    apply keeps_json_bind; [apply keeps_json_parseBody|]. intros v.
    apply keeps_json_bind.
    { destruct v; solve [apply keeps_json_ret | apply keeps_json_throw]. }
    intros [[| | | |newColumns| | |]|]; try apply keeps_json_ret.
    apply keeps_json_bind; [apply keeps_json_readData|]. intros d.
    apply keeps_json_bind;
      [apply keeps_json_pure; intros fs; apply prune_records_store|].
    intros updatedRecords.
    apply keeps_json_bind; [apply keeps_json_writeFile|]. intros _.
    apply keeps_json_ret.
  - unfold post_records.
    apply keeps_json_bind; [apply keeps_json_parseBody|]. intros v.
    destruct (not_record_object v); [apply keeps_json_ret|].
    apply keeps_json_bind; [apply keeps_json_readData|]. intros d.
    apply keeps_json_bind; [apply keeps_json_build_record|]. intros r.
    apply keeps_json_bind; [apply keeps_json_writeFile|]. intros _.
    apply keeps_json_ret.
  - unfold delete_record.
    apply keeps_json_bind; [apply keeps_json_readData|]. intros d.
    destruct (parseInt _) as [index|]; [|apply keeps_json_ret].
    destruct (_ || _); [apply keeps_json_ret|].
    apply keeps_json_bind; [apply keeps_json_writeFile|]. intros _.
    apply keeps_json_ret.
  - apply keeps_json_ret.
Qed.

(** Whatever the request, the file afterwards is the file before or a
    JSON image written by the handler. *)
Lemma requestListener_file JSON_parse req fs :
  file (requestListener JSON_parse req fs).2 = file fs
  \/ exists data,
      file (requestListener JSON_parse req fs).2 = Document (dataset_json data).
Proof.
  unfold requestListener. destruct (String.eqb _ _); [by left|].
  pose proof (keeps_json_route JSON_parse req fs) as H.
  by destruct (route JSON_parse req fs) as [[res|e] fs'].
Qed.

Lemma requestListener_store_is_json JSON_parse req fs :
  store_is_json fs -> store_is_json (requestListener JSON_parse req fs).2.
Proof.
  intros Hfs d Hd.
  destruct (requestListener_file JSON_parse req fs) as [H|[data H]].
  - apply Hfs. by rewrite <- H.
  - rewrite H in Hd. injection Hd as <-. apply dataset_json_is_json.
Qed.

(** From a store without a file, after any requests, the document is a
    JSON image. *)
Lemma serve_store_is_json JSON_parse reqs cs :
  store_is_json (serve JSON_parse reqs (mkFs Absent cs)).
Proof.
  unfold serve.
  assert (H : forall fs, store_is_json fs ->
                store_is_json
                  (foldl (fun fs req => (requestListener JSON_parse req fs).2)
                         fs reqs)).
  { induction reqs as [|req reqs IH]; intros fs Hfs; simpl; [done|].
    by apply IH, requestListener_store_is_json. }
  apply H. by intros d.
Qed.

(** So the dataset a request finds is a JSON image. *)
Lemma current_is_json fs d :
  store_is_json fs -> current (file fs) = Some d -> is_json_dataset d.
Proof.
  intros Hfs. destruct (file fs) as [| |m|d0] eqn:Hf; simpl; try done.
  - by intros [= <-].
  - intros [= <-]. by apply Hfs.
Qed.

(** ** Every way a request can end *)

Lemma readData_loaded fs d :
  current (file fs) = Some d -> readData fs = (Ok d, loaded fs).
Proof. apply readData_current. Qed.

Lemma handled_route JSON_parse req fs d :
  current (file fs) = Some d ->
  handled fs d
    match route JSON_parse req fs with
    | (Ok res, fs') => (res, fs')
    | (Throw error, fs') =>
        (sendResponse 500
           (ErrorBody "Internal Server Error" (error_message error)), fs')
    end.
Proof.
  intros Hcur. unfold route.
  pose proof (readData_loaded fs d Hcur) as Hread.
  assert (H400 : (400 : Z) ∈ [400; 404; 500]) by in_list.
  assert (H404 : (404 : Z) ∈ [400; 404; 500]) by in_list.
  assert (H500 : (500 : Z) ∈ [400; 404; 500]) by in_list.
  assert (H404' : (404 : Z) ∈ [404; 500]) by in_list.
  assert (H500' : (500 : Z) ∈ [404; 500]) by in_list.
  assert (H200 : (200 : Z) ∈ [200; 201]) by in_list.
  assert (H201 : (201 : Z) ∈ [200; 201]) by in_list.
  repeat match goal with
         | |- handled _ _ (match (if ?b then _ else _) _ with _ => _ end) =>
             destruct b
         end.
  - unfold bind. rewrite Hread. apply handled_read.
  - unfold post_columns, bind, parseBody.
    destruct (stream_error req); [by apply handled_before_load|].
    destruct (negb _).
    + destruct (JSON_parse _) as [v|]; [|by apply handled_before_load].
      destruct v as [| | | | |o| |]; simpl;
        try (by apply handled_before_load).
      destruct (o !! "columns") as [[| | | |newColumns| | |]|];
        try (by apply handled_before_load).
      rewrite Hread, prune_records_result.
      pose proof (mutation_columns d newColumns) as Hmut.
      destruct (records d) as [|r l] eqn:Hrecs; simpl.
      * by apply (handled_write fs d 200).
      * destruct (forallb has_key _); simpl;
          [by apply (handled_write fs d 200)|by apply handled_after_load].
    + simpl. rewrite lookup_empty. by apply handled_before_load.
  - unfold post_records, bind, parseBody.
    destruct (stream_error req); [by apply handled_before_load|].
    destruct (negb _).
    + destruct (JSON_parse _) as [v|]; [|by apply handled_before_load].
      simpl. destruct (not_record_object v) eqn:Hv;
        [by apply handled_before_load|].
      rewrite Hread.
      destruct v as [| | | | |o| |]; try done.
      * unfold build_record. destruct (columns d) eqn:Hc; simpl.
        -- rewrite <- Hc. apply (handled_write fs d 201); [done|].
           by apply mutation_append_empty.
        -- by apply handled_after_load.
      * rewrite build_record_object.
        destruct (forallb has_key _); simpl; [|by apply handled_after_load].
        apply (handled_write fs d 201); [done|constructor].
      * unfold build_record. destruct (columns d) eqn:Hc; simpl.
        -- rewrite <- Hc. apply (handled_write fs d 201); [done|].
           by apply mutation_append_empty.
        -- by apply handled_after_load.
    + simpl. rewrite Hread. simpl. unfold bind.
      rewrite fill_columns_result.
      destruct (forallb has_key _); simpl; [|by apply handled_after_load].
      apply (handled_write fs d 201); [done|].
      apply (mutation_append d ∅).
  - unfold delete_record, bind. rewrite Hread.
    destruct (parseInt _) as [index|]; [|by apply handled_after_load].
    destruct (index <? 0) eqn:Hneg; simpl; [by apply handled_after_load|].
    destruct (index >=? _) eqn:Hge; simpl; [by apply handled_after_load|].
    apply (handled_write fs d 200); [done|]. apply mutation_delete. lia.
  - by apply handled_before_load.
Qed.

(** On a store that holds [d], every request ends in one of the ways of
    [handled]. *)
Lemma requestListener_handled JSON_parse req fs d :
  current (file fs) = Some d ->
  handled fs d (requestListener JSON_parse req fs).
Proof.
  intros Hcur. unfold requestListener.
  destruct (String.eqb _ _); [apply handled_preflight|].
  by apply handled_route.
Qed.

(** ** GET /api/data *)

(** X1. GET /api/data on a store that holds a dataset answers 200 with
    that dataset and leaves it as it is; the same request again gets the
    same answer. *)
Theorem get_data_repeatable JSON_parse req fs d :
  method req = "GET" -> url req = "/api/data" ->
  current (file fs) = Some d ->
  let out1 := requestListener JSON_parse req fs in
  let out2 := requestListener JSON_parse req out1.2 in
  out1.1 = sendResponse 200 (DataBody d)
  /\ current (file out1.2) = Some d
  /\ out2.1 = out1.1
  /\ file out2.2 = file out1.2.
Proof.
  intros Hm Hu Hcur. cbv zeta.
  rewrite (get_data_result _ _ _ d) by done. simpl.
  assert (Hcur' : current (file (loaded fs)) = Some d)
    by (simpl; by rewrite current_after_load).
  rewrite (get_data_result _ _ _ d) by done. simpl.
  repeat split; try done. by destruct (file fs).
Qed.

Lemma get_data_repeatable_witness :
  let req := mkRequest "GET" "/api/data" [] None in
  let out1 := requestListener parse_sample req (mkFs Absent []) in
  let out2 := requestListener parse_sample req out1.2 in
  out1.1 = sendResponse 200 (DataBody initialData)
  /\ current (file out1.2) = Some initialData
  /\ out2.1 = out1.1
  /\ file out2.2 = file out1.2.
Proof.
  apply (get_data_repeatable parse_sample
           (mkRequest "GET" "/api/data" [] None) (mkFs Absent [])
           initialData eq_refl eq_refl eq_refl).
Defined.

(** ** A store that cannot be loaded *)

Lemma readData_unloadable fs :
  unloadable (file fs) ->
  exists e, error_message e = load_error (file fs)
            /\ readData fs = (Throw e, mkFs (file fs) (calls fs ++ [ReadFile])).
Proof.
  destruct fs as [[|e|m|d] cs]; simpl; try done.
  - intros He. exists e. split; [done|].
    unfold readData, try_catch, bind, fs_readFile. simpl. by rewrite He.
  - intros _. by exists (SyntaxError m).
Qed.

(** X2. On a store whose file is unreadable (for a reason other than
    ENOENT) or is not JSON, no request writes the file: the request is
    answered without the store being read, or the store is read once and
    the answer is 500 with the message of the load error.  GET /api/data
    and every DELETE under /api/records/ are of the second kind. *)
Theorem unloadable_store_answers_500 JSON_parse req fs :
  unloadable (file fs) ->
  let out := requestListener JSON_parse req fs in
  let failed :=
    (sendResponse 500
       (ErrorBody "Internal Server Error" (load_error (file fs))),
     mkFs (file fs) (calls fs ++ [ReadFile])) in
  (out.2 = fs \/ out = failed)
  /\ (method req = "GET" -> url req = "/api/data" -> out = failed)
  /\ (method req = "DELETE" -> startsWith (url req) "/api/records/" = true ->
      out = failed).
Proof.
  intros Hbad. cbv zeta.
  destruct (readData_unloadable fs Hbad) as (e & He & Hread).
  split; [|split].
  - unfold requestListener. destruct (String.eqb _ _); [by left|].
    unfold route.
    repeat match goal with
           | |- context [(if ?b then _ else _) fs] => destruct b
           end.
    + right. unfold bind. rewrite Hread. simpl. by rewrite He.
    + unfold post_columns, bind, parseBody.
      destruct (stream_error req); [by left|].
      destruct (negb _).
      * destruct (JSON_parse _) as [v|]; [|by left].
        destruct v as [| | | | |o| |]; simpl; try (by left).
        destruct (o !! "columns") as [[| | | |newColumns| | |]|];
          try (by left).
        right. rewrite Hread. simpl. by rewrite He.
      * simpl. rewrite lookup_empty. by left.
    + unfold post_records, bind, parseBody.
      destruct (stream_error req); [by left|].
      destruct (negb _).
      * destruct (JSON_parse _) as [v|]; [|by left].
        simpl. destruct (not_record_object v); [by left|].
        right. rewrite Hread. simpl. by rewrite He.
      * simpl. right. rewrite Hread. simpl. by rewrite He.
    + right. unfold delete_record, bind. rewrite Hread. simpl. by rewrite He.
    + by left.
  - intros Hm Hu.
    rewrite requestListener_route by (rewrite Hm; discriminate).
    rewrite route_get by done. unfold bind. rewrite Hread. simpl.
    by rewrite He.
  - intros Hm Hu.
    rewrite requestListener_route by (rewrite Hm; discriminate).
    rewrite route_delete by done. unfold delete_record, bind.
    rewrite Hread. simpl. by rewrite He.
Qed.

Lemma unloadable_store_answers_500_witness :
  let req := mkRequest "GET" "/api/data" [] None in
  let fs := mkFs (Corrupt "Unexpected token") [] in
  requestListener parse_sample req fs
  = (sendResponse 500 (ErrorBody "Internal Server Error" "Unexpected token"),
     mkFs (Corrupt "Unexpected token") [ReadFile]).
Proof.
  apply (proj1 (proj2 (unloadable_store_answers_500 parse_sample
           (mkRequest "GET" "/api/data" [] None)
           (mkFs (Corrupt "Unexpected token") []) I)));
    reflexivity.
Defined.

(** ** The request body *)

(** X4. When the request stream of a POST to /api/columns or
    /api/records fails with an error, the answer is 500 with the message
    of that error, whatever was received before, and the store is not
    accessed. *)
Theorem stream_error_answers_500 JSON_parse req fs e :
  method req = "POST" ->
  url req = "/api/columns" \/ url req = "/api/records" ->
  stream_error req = Some e ->
  requestListener JSON_parse req fs
  = (sendResponse 500 (ErrorBody "Internal Server Error" (error_message e)),
     fs).
Proof.
  intros Hm Hu He.
  rewrite requestListener_route by (rewrite Hm; discriminate).
  destruct Hu as [Hu|Hu].
  - rewrite route_columns by done. unfold post_columns, bind.
    by rewrite (parseBody_stream_error _ _ _ e).
  - rewrite route_records by done. unfold post_records, bind.
    by rewrite (parseBody_stream_error _ _ _ e).
Qed.

Lemma stream_error_answers_500_witness :
  requestListener parse_sample
    (mkRequest "POST" "/api/records" ["{"] (Some (PlainError "aborted")))
    (mkFs Absent [])
  = (sendResponse 500 (ErrorBody "Internal Server Error" "aborted"),
     mkFs Absent []).
Proof.
  apply (stream_error_answers_500 parse_sample
           (mkRequest "POST" "/api/records" ["{"] (Some (PlainError "aborted")))
           (mkFs Absent []) (PlainError "aborted") eq_refl
           (or_intror eq_refl) eq_refl).
Defined.

(** X5. The body is read only for POST: a request with any other method
    is handled as if it had no body, whatever its chunks and whether or
    not its stream failed. *)
Theorem body_read_only_for_post JSON_parse m u cs e fs :
  m <> "POST" ->
  requestListener JSON_parse (mkRequest m u cs e) fs
  = requestListener JSON_parse (mkRequest m u [] None) fs.
Proof.
  intros Hm. unfold requestListener, route. simpl.
  by destruct (String.eqb_spec m "POST").
Qed.

Lemma body_read_only_for_post_witness :
  requestListener parse_sample
    (mkRequest "DELETE" "/api/records/0" ["{"] (Some (PlainError "aborted")))
    (mkFs Absent [])
  = requestListener parse_sample
      (mkRequest "DELETE" "/api/records/0" [] None) (mkFs Absent []).
Proof.
  apply (body_read_only_for_post parse_sample "DELETE" "/api/records/0"
           ["{"] (Some (PlainError "aborted")) (mkFs Absent [])).
  discriminate.
Defined.

(** ** Instances of the refusals and of the two POST operations *)

Lemma record_body_refused_witness :
  let req := mkRequest "POST" "/api/records" ["[]"] None in
  decodes parse_sample req (VArr [])
  /\ requestListener parse_sample req (mkFs Absent [])
     = (sendResponse 400 (MessageBody record_message), mkFs Absent []).
Proof.
  split; [intros fs; reflexivity|].
  apply (record_body_refused parse_sample
           (mkRequest "POST" "/api/records" ["[]"] None) (mkFs Absent [])
           (VArr []) eq_refl eq_refl (fun fs => eq_refl) eq_refl).
Defined.

Lemma post_columns_refused_witness :
  let req := mkRequest "POST" "/api/columns" ["{}"] None in
  decodes parse_sample req (VObj ∅)
  /\ requestListener parse_sample req (mkFs Absent [])
     = (sendResponse 400 (MessageBody columns_message), mkFs Absent []).
Proof.
  split; [intros fs; reflexivity|].
  apply (post_columns_refused parse_sample
           (mkRequest "POST" "/api/columns" ["{}"] None) (mkFs Absent [])
           (VObj ∅) eq_refl eq_refl (fun fs => eq_refl));
    [discriminate|reflexivity].
Defined.

Lemma post_columns_replaces_witness :
  let req := mkRequest "POST" "/api/columns"
               ["{" ++ dq ++ "columns" ++ dq ++ ":[" ++ dq ++ "a" ++ dq ++ "]}"]
               None in
  let d := mkDataset [VStr "a"; VStr "b"]
             [<["a" := VStr "1"]> (<["b" := VStr "2"]> ∅)] in
  let d' := mkDataset [VStr "a"] [<["a" := VStr "1"]> ∅] in
  removed_columns (columns d) [VStr "a"] = [VStr "b"]
  /\ requestListener parse_sample req (mkFs (Document d) [])
     = (sendResponse 200 (DataBody d'),
        mkFs (Document d') [ReadFile; WriteFile d']).
Proof.
  split; [reflexivity|].
  pose proof (post_columns_replaces parse_sample
    (mkRequest "POST" "/api/columns"
       ["{" ++ dq ++ "columns" ++ dq ++ ":[" ++ dq ++ "a" ++ dq ++ "]}"] None)
    (mkFs (Document (mkDataset [VStr "a"; VStr "b"]
             [<["a" := VStr "1"]> (<["b" := VStr "2"]> ∅)])) [])
    (<["columns" := VArr [VStr "a"]]> ∅) [VStr "a"]
    (mkDataset [VStr "a"; VStr "b"]
       [<["a" := VStr "1"]> (<["b" := VStr "2"]> ∅)])
    eq_refl eq_refl (fun fs => eq_refl) eq_refl eq_refl
    ltac:(repeat constructor)) as (_ & _ & _ & H).
  rewrite H. vm_compute. reflexivity.
Defined.

Lemma post_records_plain_columns_witness :
  let req := mkRequest "POST" "/api/records"
               ["{" ++ dq ++ "a" ++ dq ++ ":" ++ dq ++ "x" ++ dq ++ "}"] None in
  let d := mkDataset [VStr "a"; VStr "b"] [] in
  let r : gmap string value :=
    <["a" := VStr "x"]> (<["b" := VStr EmptyString]> ∅) in
  (requestListener parse_sample req (mkFs (Document d) [])).1
  = sendResponse 201 (DataBody (mkDataset [VStr "a"; VStr "b"] [r])).
Proof.
  pose proof (post_records_plain_columns parse_sample
    (mkRequest "POST" "/api/records"
       ["{" ++ dq ++ "a" ++ dq ++ ":" ++ dq ++ "x" ++ dq ++ "}"] None)
    (mkFs (Document (mkDataset [VStr "a"; VStr "b"] [])) [])
    (<["a" := VStr "x"]> ∅) (mkDataset [VStr "a"; VStr "b"] [])
    eq_refl eq_refl (fun fs => eq_refl) eq_refl
    ltac:(repeat constructor) ltac:(repeat constructor)) as (_ & _ & H).
  cbv zeta. rewrite H. vm_compute. reflexivity.
Defined.

(** ** What a request leaves in the store *)

Lemma stringify_not_data p : is_data p = false -> stringify_payload p = p.
Proof. by destruct p. Qed.

Lemma after_load_current f d : current f = Some d -> after_load f = Document d.
Proof. destruct f; simpl; congruence. Qed.

(** X10. On a store that holds a dataset, an answer that carries a
    dataset carries the one that is in the file afterwards, and a
    following GET /api/data answers 200 with that same dataset. *)
Theorem answered_dataset_is_stored JSON_parse req get fs d d' :
  current (file fs) = Some d -> is_json_dataset d ->
  body (requestListener JSON_parse req fs).1 = Some (DataBody d') ->
  method get = "GET" -> url get = "/api/data" ->
  let out := requestListener JSON_parse req fs in
  file out.2 = Document d'
  /\ (requestListener JSON_parse get out.2).1
     = mkResponse 200 json_headers (Some (DataBody d')).
Proof.
  intros Hcur Hjson Hbody Hm Hu. cbv zeta.
  assert (Hfile : file (requestListener JSON_parse req fs).2 = Document d'
                  /\ is_json_dataset d').
  { destruct (requestListener_handled JSON_parse req fs d Hcur)
      as [|code p _ Hp| |code p _ Hp|code data _ _]; simpl in *.
    - done.
    - rewrite (stringify_not_data _ Hp) in Hbody. injection Hbody as ->. done.
    - injection Hbody as <-. rewrite Hjson. split; [|done].
      by apply after_load_current.
    - rewrite (stringify_not_data _ Hp) in Hbody. injection Hbody as ->. done.
    - injection Hbody as <-. split; [done|apply dataset_json_is_json]. }
  destruct Hfile as [Hfile Hjson']. split; [done|].
  rewrite (get_data_result _ _ _ d') by (by rewrite ?Hfile).
  unfold sendResponse, stringify_payload. simpl. by rewrite Hjson'.
Qed.

Lemma answered_dataset_is_stored_witness :
  let req := mkRequest "POST" "/api/records" [] None in
  let get := mkRequest "GET" "/api/data" [] None in
  let out := requestListener parse_sample req (mkFs Absent []) in
  file out.2 = Document (mkDataset [] [∅])
  /\ (requestListener parse_sample get out.2).1
     = mkResponse 200 json_headers (Some (DataBody (mkDataset [] [∅]))).
Proof.
  apply (answered_dataset_is_stored parse_sample
           (mkRequest "POST" "/api/records" [] None)
           (mkRequest "GET" "/api/data" [] None)
           (mkFs Absent []) initialData (mkDataset [] [∅]));
    reflexivity.
Defined.

(** X11. On a store that holds a dataset, a request that is answered
    with a status other than 200 and 201 leaves the dataset as it was:
    the only calls to [fs] it can have made are those of [readData]. *)
Theorem failed_request_keeps_dataset JSON_parse req fs d :
  current (file fs) = Some d ->
  let out := requestListener JSON_parse req fs in
  status out.1 <> 200 -> status out.1 <> 201 ->
  current (file out.2) = Some d
  /\ (calls out.2 = calls fs
      \/ calls out.2 = (calls fs ++ load_calls (file fs))%list).
Proof.
  intros Hcur. cbv zeta.
  destruct (requestListener_handled JSON_parse req fs d Hcur)
    as [|code p _ Hp| |code p _ Hp|code data Hcode _]; simpl;
    intros H200 H201; try done.
  - split; [done|by left].
  - split; [done|by left].
  - split; [by rewrite current_after_load|by right].
  - apply elem_of_cons in Hcode as [->|Hcode]; [done|].
    apply elem_of_cons in Hcode as [->|Hcode]; [done|].
    by apply elem_of_nil in Hcode.
Qed.

Lemma failed_request_keeps_dataset_witness :
  let req := mkRequest "DELETE" "/api/records/7" [] None in
  let d := mkDataset [VStr "a"] [<["a" := VStr "1"]> ∅] in
  let out := requestListener parse_sample req (mkFs (Document d) []) in
  current (file out.2) = Some d.
Proof.
  apply (failed_request_keeps_dataset parse_sample
           (mkRequest "DELETE" "/api/records/7" [] None)
           (mkFs (Document (mkDataset [VStr "a"] [<["a" := VStr "1"]> ∅])) [])
           (mkDataset [VStr "a"] [<["a" := VStr "1"]> ∅]) eq_refl);
    discriminate.
Defined.

(** X12. A request whose method is neither POST nor DELETE never changes
    the dataset, whatever its path. *)
Theorem only_post_and_delete_change_dataset JSON_parse req fs d :
  current (file fs) = Some d ->
  method req <> "POST" -> method req <> "DELETE" ->
  current (file (requestListener JSON_parse req fs).2) = Some d.
Proof.
  intros Hcur Hpost Hdelete. unfold requestListener, route.
  destruct (String.eqb_spec (method req) "OPTIONS"); [done|].
  destruct (String.eqb_spec (method req) "POST"); [done|].
  destruct (String.eqb_spec (method req) "DELETE"); [done|]. simpl.
  destruct (_ && _); [|done].
  unfold bind. rewrite (readData_loaded _ _ Hcur). simpl.
  by rewrite current_after_load.
Qed.

Lemma only_post_and_delete_change_dataset_witness :
  let d := mkDataset [VStr "a"] [<["a" := VStr "1"]> ∅] in
  current (file (requestListener parse_sample
                   (mkRequest "PUT" "/api/records/0" ["{}"] None)
                   (mkFs (Document d) [])).2) = Some d.
Proof.
  apply (only_post_and_delete_change_dataset parse_sample
           (mkRequest "PUT" "/api/records/0" ["{}"] None)
           (mkFs (Document (mkDataset [VStr "a"] [<["a" := VStr "1"]> ∅])) [])
           (mkDataset [VStr "a"] [<["a" := VStr "1"]> ∅]) eq_refl);
    discriminate.
Defined.

(** ** Appending, then deleting *)

Lemma dataset_json_append d (r : gmap string value) :
  is_json_dataset d ->
  dataset_json (mkDataset (columns d) (records d ++ [r]))
  = mkDataset (columns d) (records d ++ [omap json_image r]).
Proof.
  unfold is_json_dataset, dataset_json. destruct d as [cols recs]; simpl.
  intros [= Hc Hr]. by rewrite map_app, Hc, Hr.
Qed.

Lemma appended_after_earlier_records JSON_parse req fs o d :
  method req = "POST" -> url req = "/api/records" ->
  decodes JSON_parse req (VObj o) ->
  current (file fs) = Some d -> is_json_dataset d ->
  Forall (fun col => has_key col = true) (columns d) ->
  exists r,
    requestListener JSON_parse req fs
    = (mkResponse 201 json_headers
         (Some (DataBody (mkDataset (columns d) (records d ++ [r])))),
       mkFs (Document (mkDataset (columns d) (records d ++ [r])))
            (calls (loaded fs)
             ++ [WriteFile (mkDataset (columns d) (records d ++ [r]))]))
    /\ is_json_dataset (mkDataset (columns d) (records d ++ [r])).
Proof.
  intros Hm Hu Hd Hcur Hjson Hkeys.
  exists (omap json_image (own (fill_record o (columns d)))).
  rewrite (post_records_object _ _ _ o d) by done.
  rewrite dataset_json_append by done. split; [done|].
  rewrite <- dataset_json_append by done. apply dataset_json_is_json.
Qed.

(** X13. POST /api/records with a body that decodes to an object, on a
    store that holds a dataset whose columns all have a property key
    (every string, number, boolean and [null] has one), is answered 201;
    the columns and the records already there are as before, in the same
    order, and one record follows them.  This holds also for columns
    named like members of [Object.prototype]. *)
Theorem append_keeps_earlier_records JSON_parse req fs o d :
  method req = "POST" -> url req = "/api/records" ->
  decodes JSON_parse req (VObj o) ->
  current (file fs) = Some d -> is_json_dataset d ->
  Forall (fun col => has_key col = true) (columns d) ->
  exists r,
    let d' := mkDataset (columns d) (records d ++ [r]) in
    requestListener JSON_parse req fs
    = (mkResponse 201 json_headers (Some (DataBody d')),
       mkFs (Document d') (calls (loaded fs) ++ [WriteFile d'])).
Proof.
  intros Hm Hu Hd Hcur Hjson Hkeys.
  destruct (appended_after_earlier_records JSON_parse req fs o d)
    as (r & Hout & _); try done.
  by exists r.
Qed.

Lemma append_keeps_earlier_records_witness :
  let req := mkRequest "POST" "/api/records" ["{}"] None in
  let d := mkDataset [VStr "toString"] [∅] in
  exists r,
    (requestListener parse_sample req (mkFs (Document d) [])).1
    = mkResponse 201 json_headers
        (Some (DataBody (mkDataset [VStr "toString"] [∅; r]))).
Proof.
  destruct (append_keeps_earlier_records parse_sample
              (mkRequest "POST" "/api/records" ["{}"] None)
              (mkFs (Document (mkDataset [VStr "toString"] [∅])) [])
              ∅ (mkDataset [VStr "toString"] [∅])
              eq_refl eq_refl (fun fs => eq_refl) eq_refl eq_refl
              ltac:(repeat constructor))
    as [r Hr].
  exists r. cbv zeta in *. by rewrite Hr.
Defined.

Lemma splice1_last {A} (l : list A) (x : A) :
  splice1 (Z.of_nat (List.length l)) (l ++ [x]) = l.
Proof.
  unfold splice1. rewrite Nat2Z.id.
  rewrite take_app_length, drop_ge by (rewrite length_app; simpl; lia).
  by rewrite app_nil_r.
Qed.

(** X14. Appending a record and then deleting the last index restores
    the dataset: on a store whose columns all have a property key, after
    POST /api/records with an object body, a DELETE whose index is the
    number of records there were before is answered 200 with the dataset
    as it was, and that dataset is in the file. *)
Theorem append_then_delete_last JSON_parse post del fs o d :
  method post = "POST" -> url post = "/api/records" ->
  decodes JSON_parse post (VObj o) ->
  current (file fs) = Some d -> is_json_dataset d ->
  Forall (fun col => has_key col = true) (columns d) ->
  method del = "DELETE" -> startsWith (url del) "/api/records/" = true ->
  parseInt (index_segment del) = Some (Z.of_nat (List.length (records d))) ->
  let out1 := requestListener JSON_parse post fs in
  let out2 := requestListener JSON_parse del out1.2 in
  out2.1 = mkResponse 200 json_headers (Some (DataBody d))
  /\ file out2.2 = Document d.
Proof.
  intros Hm Hu Hd Hcur Hjson Hkeys Hm' Hu' Hi. cbv zeta.
  destruct (appended_after_earlier_records JSON_parse post fs o d)
    as (r & Hout & Hjson'); try done.
  rewrite Hout. simpl.
  rewrite (delete_record_success _ _ _
             (mkDataset (columns d) (records d ++ [r]))
             (Z.of_nat (List.length (records d))));
    try done.
  - simpl. rewrite splice1_last. by destruct d.
  - simpl. rewrite length_app. simpl. lia.
Qed.

Lemma append_then_delete_last_witness :
  let post := mkRequest "POST" "/api/records" ["{}"] None in
  let del := mkRequest "DELETE" "/api/records/1" [] None in
  let d := mkDataset [VStr "a"] [<["a" := VStr "1"]> ∅] in
  let out1 := requestListener parse_sample post (mkFs (Document d) []) in
  let out2 := requestListener parse_sample del out1.2 in
  out2.1 = mkResponse 200 json_headers (Some (DataBody d))
  /\ file out2.2 = Document d.
Proof.
  apply (append_then_delete_last parse_sample
           (mkRequest "POST" "/api/records" ["{}"] None)
           (mkRequest "DELETE" "/api/records/1" [] None)
           (mkFs (Document (mkDataset [VStr "a"] [<["a" := VStr "1"]> ∅])) [])
           ∅ (mkDataset [VStr "a"] [<["a" := VStr "1"]> ∅]));
    solve [reflexivity | intros fs; reflexivity | repeat constructor].
Defined.

(** ** The shape of every answer *)

Lemma answers_ret code payload :
  code ∈ [200; 201; 400; 404] -> answers (ret (sendResponse code payload)).
Proof. intros Hc fs res fs' [= <- <-]. by exists code, payload. Qed.

Lemma answers_throw e : answers (throw e).
Proof. by intros fs res fs'. Qed.

Lemma answers_bind {A} (m : M A) (k : A -> M Response) :
  (forall a, answers (k a)) -> answers (bind m k).
Proof.
  intros Hk fs res fs'. unfold bind.
  destruct (m fs) as [[a|e] fs1]; [apply Hk|done].
Qed.

Lemma answers_route JSON_parse req : answers (route JSON_parse req).
Proof.
  unfold route.
  repeat match goal with
         | |- answers (if ?b then _ else _) => destruct b
         end.
  - apply answers_bind. intros d. apply answers_ret. in_list.
  - unfold post_columns. apply answers_bind. intros v.
    apply answers_bind. intros [[| | | |newColumns| | |]|];
      try (apply answers_ret; in_list).
    apply answers_bind. intros d. apply answers_bind. intros updatedRecords.
    apply answers_bind. intros _. apply answers_ret. in_list.
  - unfold post_records. apply answers_bind. intros v.
    destruct (not_record_object v); [apply answers_ret; in_list|].
    apply answers_bind. intros d. apply answers_bind. intros r.
    apply answers_bind. intros _. apply answers_ret. in_list.
  - unfold delete_record. apply answers_bind. intros d.
    destruct (parseInt _) as [index|]; [|apply answers_ret; in_list].
    destruct (_ || _); [apply answers_ret; in_list|].
    apply answers_bind. intros _. apply answers_ret. in_list.
  - apply answers_ret. in_list.
Qed.

(** X15. Whatever the request and whatever the state of the file, the
    answer has one of the statuses 200, 201, 204, 400, 404 and 500; when
    the method is not OPTIONS it has the JSON content type and the three
    cross-origin headers, and it has a body. *)
Theorem every_answer_is_json_with_cors JSON_parse req fs :
  let res := (requestListener JSON_parse req fs).1 in
  status res ∈ [200; 201; 204; 400; 404; 500]
  /\ (method req <> "OPTIONS" ->
      headers res
      = [ ("Content-Type", "application/json");
          ("Access-Control-Allow-Origin", "*");
          ("Access-Control-Allow-Methods", "GET, POST, DELETE, OPTIONS");
          ("Access-Control-Allow-Headers", "Content-Type") ]
      /\ is_Some (body res)).
Proof.
  cbv zeta. unfold requestListener.
  destruct (String.eqb_spec (method req) "OPTIONS") as [Hm|Hm].
  - split; [simpl; in_list|done].
  - pose proof (answers_route JSON_parse req fs) as H.
    destruct (route JSON_parse req fs) as [[res|e] fs']; simpl.
    + destruct (H res fs' eq_refl) as (code & payload & -> & Hcode). simpl.
      split; [|done].
      repeat (apply elem_of_cons in Hcode as [->|Hcode]; [in_list|]).
      by apply elem_of_nil in Hcode.
    + split; [in_list|done].
Qed.

Lemma every_answer_is_json_with_cors_witness :
  let res := (requestListener parse_sample
                (mkRequest "PATCH" "/nowhere" ["{"] None)
                (mkFs (Corrupt "bad") [])).1 in
  status res ∈ [200; 201; 204; 400; 404; 500]
  /\ headers res = json_headers
  /\ is_Some (body res).
Proof.
  destruct (every_answer_is_json_with_cors parse_sample
              (mkRequest "PATCH" "/nowhere" ["{"] None)
              (mkFs (Corrupt "bad") [])) as [Hs Hh].
  split; [exact Hs|]. apply Hh. discriminate.
Defined.

(** ** Records have no key outside the columns *)

#[local] Set Warnings "-clear-no-such-hyp".

Lemma same_value_zero_eq a b : same_value_zero a b = true -> a = b.
Proof.
  destruct a as [|x|[x| |]|x| | | |], b as [|y|[y| |]|y| | | |];
    simpl; try done.
  - by intros ->%Bool.eqb_prop.
  - by intros ->%String.eqb_eq.
  - by intros ->%String.eqb_eq.
Qed.

Lemma includes_elem arr x : includes arr x = true -> x ∈ arr.
Proof.
  unfold includes. rewrite existsb_exists.
  intros (y & Hy & ->%same_value_zero_eq). by apply list_elem_of_In.
Qed.

Lemma prune_record_dom removedCols (record : gmap string value) key :
  key ∈ dom (prune_record removedCols record)
  <-> key ∈ dom record /\ key ∉ to_string <$> removedCols.
Proof.
  rewrite !elem_of_dom, prune_record_lookup.
  case_bool_decide; split.
  - by intros [? ?].
  - by intros [_ ?].
  - done.
  - by intros [? _].
Qed.

Lemma set_property_dom obj key v :
  dom (own (set_property obj key v)) ⊆ dom (own obj) ∪ {[key]}.
Proof.
  unfold set_property.
  destruct (String.eqb key "__proto__"); [destruct (_ || _)|]; simpl.
  - rewrite dom_insert. set_solver.
  - destruct v; simpl; set_solver.
  - rewrite dom_insert. set_solver.
Qed.

Lemma fill_dom (o : gmap string value) cols obj :
  dom (own (foldl (fill_step o) obj cols))
  ⊆ dom (own obj) ∪ list_to_set (to_string <$> cols).
Proof.
  revert obj. induction cols as [|c l IH]; intros obj; simpl.
  - set_solver.
  - etrans; [apply IH|]. unfold fill_step.
    pose proof (set_property_dom obj (to_string c)
                  (or_empty (get_property o (to_string c)))).
    set_solver.
Qed.

Lemma omap_json_dom (r : gmap string value) :
  dom (omap json_image r) ⊆ dom r.
Proof.
  intros k. rewrite !elem_of_dom, lookup_omap.
  destruct (r !! k); [done|]. by intros [? ?].
Qed.

Lemma json_columns_fixed d c :
  is_json_dataset d -> c ∈ columns d -> json_of c = c.
Proof.
  unfold is_json_dataset, dataset_json. destruct d as [cols recs]; simpl.
  intros [= Hc _]. revert Hc. clear.
  induction cols as [|x l IH]; simpl.
  - by intros _ ?%elem_of_nil.
  - intros [= Hx Hl] [->|Hin]%elem_of_cons; [done|by apply IH].
Qed.

(** Every dataset the handler writes from a consistent one is
    consistent. *)
Lemma mutation_keys_within d data :
  is_json_dataset d -> keys_within_columns d -> mutation d data ->
  keys_within_columns (dataset_json data).
Proof.
  intros Hjson Hkeys Hmut. unfold keys_within_columns in *.
  destruct Hmut as [newColumns|o|Hnone|index Hindex]; simpl.
  - apply List.Forall_map, List.Forall_map.
    eapply Forall_impl; [exact Hkeys|]. intros r Hr k Hk.
    apply omap_json_dom, prune_record_dom in Hk as [Hk Hkept].
    apply Hr, elem_of_list_to_set, list_elem_of_fmap in Hk as (c & -> & Hc).
    apply elem_of_list_to_set, list_elem_of_fmap.
    exists c. split; [done|].
    destruct (includes newColumns c) eqn:Hinc.
    + apply includes_elem in Hinc.
      rewrite <- (json_columns_fixed d c Hjson Hc).
      apply list_elem_of_In, in_map, list_elem_of_In, Hinc.
    + exfalso. apply Hkept, list_elem_of_fmap_2.
      by apply removed_columns_spec.
  - assert (Hcols : map json_of (columns d) = columns d).
    { unfold is_json_dataset, dataset_json in Hjson.
      destruct d; simpl in *. by injection Hjson. }
    rewrite Hcols, map_app. apply Forall_app. split.
    + apply List.Forall_map. eapply Forall_impl; [exact Hkeys|].
      intros r Hr k Hk. by apply Hr, omap_json_dom.
    + apply Forall_singleton. intros k Hk.
      apply omap_json_dom in Hk. unfold fill_record in Hk.
      apply fill_dom in Hk. set_solver.
  - rewrite Hnone. simpl. rewrite map_app. apply Forall_app. split.
    + apply List.Forall_map. eapply Forall_impl; [exact Hkeys|].
      intros r Hr k Hk. apply omap_json_dom, Hr in Hk. by rewrite Hnone in Hk.
    + apply Forall_singleton. by rewrite omap_empty, dom_empty.
  - assert (Hcols : map json_of (columns d) = columns d).
    { unfold is_json_dataset, dataset_json in Hjson.
      destruct d; simpl in *. by injection Hjson. }
    rewrite Hcols. apply List.Forall_map.
    assert (Hsub : Forall (fun r : gmap string value =>
                             dom r ⊆ list_to_set (to_string <$> columns d))
                     (splice1 index (records d))).
    { unfold splice1. apply Forall_app. split.
      - by apply Forall_take.
      - by apply Forall_drop. }
    eapply Forall_impl; [exact Hsub|].
    intros r Hr k Hk. by apply Hr, omap_json_dom.
Qed.

Lemma requestListener_keeps_consistent JSON_parse req fs d :
  current (file fs) = Some d -> is_json_dataset d -> keys_within_columns d ->
  exists d',
    current (file (requestListener JSON_parse req fs).2) = Some d'
    /\ is_json_dataset d' /\ keys_within_columns d'.
Proof.
  intros Hcur Hjson Hkeys.
  destruct (requestListener_handled JSON_parse req fs d Hcur)
    as [|code p _ _| |code p _ _|code data _ Hmut]; simpl.
  - by exists d.
  - by exists d.
  - exists d. by rewrite current_after_load.
  - exists d. by rewrite current_after_load.
  - exists (dataset_json data). split; [done|].
    split; [apply dataset_json_is_json|by apply (mutation_keys_within d)].
Qed.

(** X16. Starting from a store that holds a dataset whose records have
    no key outside the columns (a store without a file is one), after
    any sequence of requests the store holds a dataset, and again every
    key of every record is the key of a column: removing a column prunes
    its key from every record, and an appended record gets keys of
    columns only. *)
Theorem serve_keeps_keys_within_columns JSON_parse reqs fs d :
  current (file fs) = Some d -> is_json_dataset d -> keys_within_columns d ->
  exists d',
    current (file (serve JSON_parse reqs fs)) = Some d'
    /\ is_json_dataset d' /\ keys_within_columns d'.
Proof.
  unfold serve. revert fs d.
  induction reqs as [|req reqs IH]; intros fs d Hcur Hjson Hkeys; simpl.
  - by exists d.
  - destruct (requestListener_keeps_consistent JSON_parse req fs d)
      as (d1 & Hcur1 & Hjson1 & Hkeys1); try done.
    by apply (IH _ d1).
Qed.

Lemma serve_keeps_keys_within_columns_witness :
  let reqs :=
    [ mkRequest "POST" "/api/columns"
        ["{" ++ dq ++ "columns" ++ dq ++ ":[" ++ dq ++ "a" ++ dq ++ "]}"] None;
      mkRequest "POST" "/api/records"
        ["{" ++ dq ++ "a" ++ dq ++ ":5}"] None;
      mkRequest "POST" "/api/columns"
        ["{" ++ dq ++ "columns" ++ dq ++ ":[" ++ dq ++ "constructor" ++ dq ++ "]}"]
        None ] in
  exists d',
    current (file (serve parse_sample reqs (mkFs Absent []))) = Some d'
    /\ is_json_dataset d' /\ keys_within_columns d'.
Proof.
  apply (serve_keeps_keys_within_columns parse_sample _ (mkFs Absent [])
           initialData eq_refl eq_refl).
  constructor.
Defined.

(** ** Columns that stay *)

Lemma removed_columns_none oldColumns newColumns :
  Forall (fun col => includes newColumns col = true) oldColumns ->
  removed_columns oldColumns newColumns = [].
Proof.
  unfold removed_columns. induction 1 as [|c l Hc _ IH]; simpl; [done|].
  by rewrite Hc.
Qed.

(** X17. POST /api/columns with an array that includes every current
    column (so columns are only added, repeated or reordered) leaves
    every record as it is: no record gets a key for a new column. *)
Theorem adding_columns_keeps_records JSON_parse req fs o newColumns d :
  method req = "POST" -> url req = "/api/columns" ->
  decodes JSON_parse req (VObj o) ->
  o !! "columns" = Some (VArr newColumns) ->
  current (file fs) = Some d -> is_json_dataset d ->
  Forall (fun col => includes newColumns col = true) (columns d) ->
  let d' := mkDataset (map json_of newColumns) (records d) in
  requestListener JSON_parse req fs
  = (mkResponse 200 json_headers (Some (DataBody d')),
     mkFs (Document d') (calls (loaded fs) ++ [WriteFile d'])).
Proof.
  intros Hm Hu Hd Hcols Hcur Hjson Hinc. cbv zeta.
  rewrite (post_columns_accepted _ _ _ o newColumns d);
    [|done..|by rewrite (removed_columns_none _ _ Hinc)].
  rewrite (removed_columns_none _ _ Hinc).
  assert (Hrecs : map (omap json_image)
                    (map (prune_record []) (records d)) = records d).
  { unfold is_json_dataset, dataset_json in Hjson.
    destruct d as [cols recs]; simpl in *. injection Hjson as _ Hr.
    rewrite map_map. rewrite <- Hr at 2. by apply map_ext. }
  unfold sendResponse, stringify_payload, dataset_json. simpl.
  by rewrite Hrecs.
Qed.

Lemma adding_columns_keeps_records_witness :
  let req := mkRequest "POST" "/api/columns"
               ["{" ++ dq ++ "columns" ++ dq ++ ":[" ++ dq ++ "b" ++ dq ++ ","
                    ++ dq ++ "a" ++ dq ++ "]}"]
               None in
  let d := mkDataset [VStr "a"] [<["a" := VStr "1"]> ∅; ∅] in
  Forall (fun col => includes [VStr "b"; VStr "a"] col = true) (columns d)
  /\ file (requestListener parse_sample req (mkFs (Document d) [])).2
     = Document (mkDataset [VStr "b"; VStr "a"] [<["a" := VStr "1"]> ∅; ∅]).
Proof.
  assert (Hinc : Forall (fun col => includes [VStr "b"; VStr "a"] col = true)
                   [VStr "a"])
    by (by repeat constructor).
  split; [exact Hinc|].
  pose proof (adding_columns_keeps_records parse_sample
    (mkRequest "POST" "/api/columns"
       ["{" ++ dq ++ "columns" ++ dq ++ ":[" ++ dq ++ "b" ++ dq ++ ","
            ++ dq ++ "a" ++ dq ++ "]}"] None)
    (mkFs (Document (mkDataset [VStr "a"] [<["a" := VStr "1"]> ∅; ∅])) [])
    (<["columns" := VArr [VStr "b"; VStr "a"]]> ∅) [VStr "b"; VStr "a"]
    (mkDataset [VStr "a"] [<["a" := VStr "1"]> ∅; ∅])
    eq_refl eq_refl (fun fs => eq_refl) eq_refl eq_refl) as H.
  cbv zeta in *. rewrite H; [reflexivity|reflexivity|exact Hinc].
Defined.

(** ** The index segment of a deletion *)

Lemma split_not_nil c s : split c s <> [].
Proof.
  destruct s as [|a s]; simpl; [done|].
  destruct (Ascii.eqb a c); [done|]. by destruct (split c s).
Qed.

Lemma split_app_separator c (s t : string) :
  split c (s ++ String c t) = (split c s ++ split c t)%list.
Proof.
  induction s as [|a s IH].
  - change (EmptyString ++ String c t) with (String c t). simpl.
    by rewrite Ascii.eqb_refl.
  - rewrite append_cons. simpl. rewrite IH.
    destruct (Ascii.eqb a c); [done|].
    pose proof (split_not_nil c s). by destruct (split c s).
Qed.

Lemma split_without_separator c s :
  has_char c s = false -> split c s = [s].
Proof.
  induction s as [|a s IH]; simpl; [done|].
  intros [Ha Hs]%orb_false_elim. by rewrite Ha, (IH Hs).
Qed.

(** The index segment of ["/api/records/" ++ t] is the first part of
    [t]. *)
Lemma index_segment_first m t cs e :
  index_segment (mkRequest m ("/api/records/" ++ t) cs e)
  = default EmptyString (head (split "/" t)).
Proof.
  unfold index_segment. simpl url.
  change ("/api/records/" ++ t) with ("/api/records" ++ String "/" t).
  rewrite split_app_separator.
  change (split "/" "/api/records") with [EmptyString; "api"; "records"].
  pose proof (split_not_nil "/" t). by destruct (split "/" t).
Qed.

(** X18. A deletion looks at the fourth part of the path only: whatever
    follows a further [/] after the index is ignored, so a DELETE to
    [/api/records/<index>/<anything>] is handled as the DELETE to
    [/api/records/<index>]. *)
Theorem delete_ignores_later_segments JSON_parse index rest cs e fs :
  has_char "/" index = false ->
  requestListener JSON_parse
    (mkRequest "DELETE" ("/api/records/" ++ index ++ String "/" rest) cs e) fs
  = requestListener JSON_parse
      (mkRequest "DELETE" ("/api/records/" ++ index) cs e) fs.
Proof.
  intros Hindex.
  rewrite !requestListener_route by discriminate.
  rewrite !route_delete by (try done; apply startsWith_append).
  unfold delete_record. fold (index_segment
    (mkRequest "DELETE" ("/api/records/" ++ index ++ String "/" rest) cs e)).
  fold (index_segment (mkRequest "DELETE" ("/api/records/" ++ index) cs e)).
  rewrite !index_segment_first, split_app_separator.
  by rewrite (split_without_separator _ _ Hindex).
Qed.

Lemma delete_ignores_later_segments_witness :
  let d := mkDataset [] [∅; ∅] in
  requestListener parse_sample
    (mkRequest "DELETE" "/api/records/1/extra/parts" [] None)
    (mkFs (Document d) [])
  = requestListener parse_sample
      (mkRequest "DELETE" "/api/records/1" [] None) (mkFs (Document d) []).
Proof.
  apply (delete_ignores_later_segments parse_sample "1" "extra/parts" [] None
           (mkFs (Document (mkDataset [] [∅; ∅])) []) eq_refl).
Defined.

(** ** An empty body *)

(** X19. POST /api/records with no body at all (zero bytes) appends a
    record that has the empty string under every column, when every
    column has a property key (every string, number, boolean and [null]
    has one) and none is named like a member of [Object.prototype]; the
    answer is 201. *)
Theorem empty_body_appends_blank_record JSON_parse req fs d :
  method req = "POST" -> url req = "/api/records" ->
  stream_error req = None -> body_text req = EmptyString ->
  current (file fs) = Some d -> is_json_dataset d ->
  Forall (fun col => has_key col = true) (columns d) ->
  Forall (fun col => is_prototype_member (to_string col) = false) (columns d) ->
  let blank : gmap string value :=
    gset_to_gmap (VStr EmptyString) (list_to_set (to_string <$> columns d)) in
  let d' := mkDataset (columns d) (records d ++ [blank]) in
  requestListener JSON_parse req fs
  = (mkResponse 201 json_headers (Some (DataBody d')),
     mkFs (Document d') (calls (loaded fs) ++ [WriteFile d'])).
Proof.
  intros Hm Hu He Hb Hcur Hjson Hkeys Hcols. cbv zeta.
  assert (Hd : decodes JSON_parse req (VObj ∅))
    by (intros fs0; by apply parseBody_empty).
  rewrite (post_records_object _ _ _ ∅ d) by done.
  rewrite dataset_json_append by done.
  replace (omap json_image (own (fill_record ∅ (columns d))))
    with (gset_to_gmap (VStr EmptyString)
            (list_to_set (to_string <$> columns d)) : gmap string value);
    [done|].
  apply map_eq. intros k.
  destruct (fill_record_plain ∅ (columns d) Hcols) as [Hlookup _].
  rewrite lookup_omap, Hlookup, lookup_gset_to_gmap, lookup_empty.
  destruct (decide (k ∈ to_string <$> columns d)) as [Hk|Hk].
  - rewrite bool_decide_eq_true_2 by done.
    by rewrite option_guard_True by (by apply elem_of_list_to_set).
  - rewrite bool_decide_eq_false_2 by done.
    by rewrite option_guard_False by (by rewrite elem_of_list_to_set).
Qed.

Lemma empty_body_appends_blank_record_witness :
  let req := mkRequest "POST" "/api/records" [] None in
  let d := mkDataset [VStr "a"; VStr "b"] [] in
  file (requestListener parse_sample req (mkFs (Document d) [])).2
  = Document (mkDataset [VStr "a"; VStr "b"]
                [<["a" := VStr EmptyString]> (<["b" := VStr EmptyString]> ∅)]).
Proof.
  pose proof (empty_body_appends_blank_record parse_sample
    (mkRequest "POST" "/api/records" [] None)
    (mkFs (Document (mkDataset [VStr "a"; VStr "b"] [])) [])
    (mkDataset [VStr "a"; VStr "b"] [])
    eq_refl eq_refl eq_refl eq_refl eq_refl eq_refl
    ltac:(repeat constructor) ltac:(repeat constructor)) as H.
  cbv zeta in *. rewrite H. vm_compute. reflexivity.
Defined.

(** ** A store without a file *)

(** X20. On a store without a file every DELETE under /api/records/ is
    answered 404, whatever the index, and leaves the file created by
    [readData], holding the empty dataset. *)
Theorem delete_on_fresh_store JSON_parse req cs :
  method req = "DELETE" -> startsWith (url req) "/api/records/" = true ->
  requestListener JSON_parse req (mkFs Absent cs)
  = (sendResponse 404 (MessageBody index_message),
     mkFs (Document initialData) (cs ++ [ReadFile; WriteFile initialData])).
Proof.
  intros Hm Hu.
  rewrite (delete_record_result _ _ _ initialData) by done. simpl.
  destruct (parseInt (index_segment req)) as [index|]; [|done].
  destruct (index <? 0) eqn:Hneg; [done|]. simpl.
  destruct (index >=? Z.of_nat 0) eqn:Hge; [done|].
  exfalso. rewrite Z.geb_leb in Hge. change (Z.of_nat 0) with 0 in Hge. lia.
Qed.

Lemma delete_on_fresh_store_witness :
  requestListener parse_sample
    (mkRequest "DELETE" "/api/records/0" [] None) (mkFs Absent [])
  = (sendResponse 404 (MessageBody index_message),
     mkFs (Document initialData) [ReadFile; WriteFile initialData]).
Proof.
  apply (delete_on_fresh_store parse_sample
           (mkRequest "DELETE" "/api/records/0" [] None) [] eq_refl eq_refl).
Defined.

(** ** What each operation leaves alone *)

(** X21. Only POST /api/columns changes the columns, and it never
    changes the number of records: on a store that holds a dataset, any
    other request leaves the columns as they were, and POST /api/columns
    leaves as many records as there were. *)
Theorem columns_change_only_by_post_columns JSON_parse req fs d :
  current (file fs) = Some d -> is_json_dataset d ->
  exists d',
    current (file (requestListener JSON_parse req fs).2) = Some d'
    /\ (~ (method req = "POST" /\ url req = "/api/columns") ->
        columns d' = columns d)
    /\ (method req = "POST" -> url req = "/api/columns" ->
        List.length (records d') = List.length (records d)).
Proof.
  intros Hcur Hjson.
  assert (Hcols : map json_of (columns d) = columns d).
  { unfold is_json_dataset, dataset_json in Hjson.
    destruct d; simpl in *. by injection Hjson. }
  pose proof (readData_loaded fs d Hcur) as Hread.
  assert (Hsame : exists d',
             current (file fs) = Some d'
             /\ (~ (method req = "POST" /\ url req = "/api/columns") ->
                 columns d' = columns d)
             /\ (method req = "POST" -> url req = "/api/columns" ->
                 List.length (records d') = List.length (records d)))
    by (by exists d).
  assert (Hloaded : exists d',
             current (after_load (file fs)) = Some d'
             /\ (~ (method req = "POST" /\ url req = "/api/columns") ->
                 columns d' = columns d)
             /\ (method req = "POST" -> url req = "/api/columns" ->
                 List.length (records d') = List.length (records d)))
    by (exists d; by rewrite current_after_load).
  unfold requestListener, route.
  destruct (String.eqb_spec (method req) "OPTIONS"); [done|].
  destruct (String.eqb_spec (method req) "GET") as [Hget|Hget];
    destruct (String.eqb_spec (method req) "POST") as [Hpost|Hpost];
    destruct (String.eqb_spec (method req) "DELETE") as [Hdel|Hdel];
    try congruence; simpl; [| | |done].
  - destruct (String.eqb (url req) "/api/data"); [|done].
    unfold bind. by rewrite Hread.
  - destruct (String.eqb_spec (url req) "/api/columns") as [Hu|Hu].
    + unfold post_columns, bind, parseBody.
      destruct (stream_error req); [done|].
      destruct (negb _).
      * destruct (JSON_parse _) as [v|]; [|done].
        destruct v as [| | | | |o| |]; simpl; try done.
        destruct (o !! "columns") as [[| | | |newColumns| | |]|]; try done.
        rewrite Hread, prune_records_result.
        destruct (records d) as [|r l] eqn:Hrecs; simpl.
        -- eexists. split; [done|]. split; [intros Hne; by destruct Hne|done].
        -- destruct (forallb has_key _); simpl; [|exact Hloaded].
           eexists. split; [done|]. split; [intros Hne; by destruct Hne|].
           intros _ _. simpl. by rewrite !length_map.
      * simpl. by rewrite lookup_empty.
    + destruct (String.eqb (url req) "/api/records"); [|done].
      unfold post_records, bind, parseBody.
      assert (Hwrite : forall r : gmap string value, exists d',
                 Some (dataset_json
                         (mkDataset (columns d) (records d ++ [r]))) = Some d'
                 /\ (~ (method req = "POST" /\ url req = "/api/columns") ->
                     columns d' = columns d)
                 /\ (method req = "POST" -> url req = "/api/columns" ->
                     List.length (records d') = List.length (records d))).
      { intros r. eexists. split; [done|]. simpl. split; [done|].
        by intros _ ?. }
      destruct (stream_error req); [done|].
      destruct (negb _).
      * destruct (JSON_parse _) as [v|]; [|done]. simpl.
        destruct (not_record_object v) eqn:Hv; [done|].
        rewrite Hread.
        destruct v as [| | | | |o| |]; try done.
        -- unfold build_record.
           destruct (columns d) eqn:Hc; simpl; [apply Hwrite|done].
        -- rewrite build_record_object.
           destruct (forallb has_key _); simpl; [apply Hwrite|done].
        -- unfold build_record.
           destruct (columns d) eqn:Hc; simpl; [apply Hwrite|done].
      * simpl. rewrite Hread. simpl. unfold bind.
        rewrite fill_columns_result.
        destruct (forallb has_key _); simpl; [apply Hwrite|done].
  - destruct (startsWith _ _); [|done].
    unfold delete_record, bind. rewrite Hread.
    destruct (parseInt _) as [index|]; [|done].
    destruct (_ || _); [done|]. simpl.
    eexists. split; [done|]. simpl. split; [done|]. by intros ? _.
Qed.

Lemma columns_change_only_by_post_columns_witness :
  let req := mkRequest "POST" "/api/records" ["{}"] None in
  let d := mkDataset [VStr "a"] [] in
  exists d',
    current (file (requestListener parse_sample req (mkFs (Document d) [])).2)
    = Some d'
    /\ columns d' = [VStr "a"].
Proof.
  destruct (columns_change_only_by_post_columns parse_sample
              (mkRequest "POST" "/api/records" ["{}"] None)
              (mkFs (Document (mkDataset [VStr "a"] [])) [])
              (mkDataset [VStr "a"] []) eq_refl eq_refl)
    as (d' & Hcur & Hcols & _).
  exists d'. split; [exact Hcur|]. apply Hcols. intros [_ Hu]. discriminate Hu.
Defined.
